(** * A shallow embedding of the finance calculator (kalkulacka.py, app.py)

    The calculator computes, from a handful of numeric inputs, the savings
    plan for a lump-sum goal and for a fixed-term monthly pension ("renta"),
    and serves both through one HTTP endpoint.

    Numbers.  Python's [float] is binary64.  The embedding follows the
    formulas over the real numbers [R], with the exceptions Python raises on
    them ([ZeroDivisionError] from [/] and from [**]); it does not follow
    rounding, overflow ([OverflowError] from [**]), underflow, infinities or
    NaN.  Python's [int] is [Z].  Where [**] would produce a complex number
    (a negative base under a fractional exponent) the model stops with the
    outcome [OutOfReals].

    The theorems on the calculators are stated so that they do not rest on
    exact arithmetic.  They are equalities between the outcomes of two
    computations that run the same operations on the same numbers,
    properties of the record a call returns, or statements over ordinary
    rates and horizons ([Spec.ordinary_rate], [Spec.ordinary_years]), where
    no power overflows or underflows and orderings survive rounding.  Where
    a statement of the specification fails through rounding alone, the
    counterexample is computed on primitive floats in module [Binary64].

    Layout: the embedding comes first (modules [Py], [Kalkulacka],
    [Binary64], [App]), then the formulas of the specification ([Spec]), the
    inputs used as examples ([Scenarios]), the record shapes ([Ledger]), the
    console helpers ([Console]) and the manual tests ([ManualTests]); the
    lemmas and the theorems follow. *)

From Stdlib Require Import Reals Lra Lia ZArith DecimalString.
From Stdlib Require Floats.
From stdpp Require Import base gmap strings.

(* ================================================================== *)
(** ** Python arithmetic on floats, with its exceptions                 *)
(* ================================================================== *)

Module Py.
Local Open Scope R_scope.

(** The built-in exceptions this code can meet. *)
Inductive exception : Type :=
| ZeroDivisionError
| ValueError.

(** The outcome of evaluating an expression: a value, a raised exception,
    or a complex number (which the model does not follow further). *)
Inductive result (A : Type) : Type :=
| Ok (a : A)
| Raise (e : exception)
| OutOfReals.

Arguments Ok {A} a.
Arguments Raise {A} e.
Arguments OutOfReals {A}.

Definition bind {A B : Type} (m : result A) (k : A -> result B) : result B :=
  match m with
  | Ok a => k a
  | Raise e => Raise e
  | OutOfReals => OutOfReals
  end.

Definition rmap {A B : Type} (f : A -> B) (m : result A) : result B :=
  bind m (fun a => Ok (f a)).

Notation "'let*' x ':=' m 'in' k" := (bind m (fun x => k))
  (at level 10, x name, m at level 100, k at level 200).

(** [x / y] on floats. *)
Definition float_div (x y : R) : result R :=
  if Req_dec_T y 0 then Raise ZeroDivisionError else Ok (x / y).

(** [y] holds an integral value ([iw == floor(iw)] in CPython). *)
Definition is_integral (y : R) : bool :=
  if Req_dec_T y (IZR (Int_part y)) then true else false.

(** [x ** y] on floats, case by case as CPython's [float_pow] decides it:
    [x ** 0] is 1 (also [0 ** 0]); [0 ** y] is 0 for positive [y] and raises
    for negative [y]; a negative base is raised to an integral exponent as an
    integer power and to a fractional exponent into the complex numbers; a
    positive base goes to the platform's [pow]. *)
Definition float_pow (x y : R) : result R :=
  if Req_dec_T y 0 then Ok 1
  else if Req_dec_T x 0 then
    (if Rlt_dec y 0 then Raise ZeroDivisionError else Ok 0)
  else if Rlt_dec x 0 then
    (if is_integral y then Ok (powerRZ x (Int_part y)) else OutOfReals)
  else Ok (Rpower x y).

(** [round(x)] with one argument: the nearest integer, ties to the even one. *)
Definition round (x : R) : Z :=
  let f := Int_part x in
  let d := frac_part x in
  if Rlt_dec d (1 / 2) then f
  else if Rlt_dec (1 / 2) d then (f + 1)%Z
  else if Z.even f then f else (f + 1)%Z.

(** [repr] of a string without quotes or escapes, and [str] of a list of
    such strings, as an f-string prints it. *)
Definition repr_str (s : string) : string := "'" +:+ s +:+ "'".

Fixpoint join (sep : string) (l : list string) : string :=
  match l with
  | [] => ""
  | [s] => s
  | s :: rest => s +:+ sep +:+ join sep rest
  end.

Definition str_list (l : list string) : string :=
  "[" +:+ join ", " (map repr_str l) +:+ "]".

End Py.

(* ================================================================== *)
(** ** kalkulacka.py                                                    *)
(* ================================================================== *)

Module Kalkulacka.
Import Py.
Local Open Scope R_scope.

Inductive InvestmentType : Type :=
| ONE_TIME
| MONTHLY
| COMBINED.

(** The [.value] of an enumeration member. *)
Definition InvestmentType_value (t : InvestmentType) : string :=
  match t with
  | ONE_TIME => "one_time"
  | MONTHLY => "monthly"
  | COMBINED => "combined"
  end.

(** [InvestmentType(s)]: the member with that value, [ValueError] if none. *)
Definition InvestmentType_of_value (s : string) : result InvestmentType :=
  if decide (s = "one_time") then Ok ONE_TIME
  else if decide (s = "monthly") then Ok MONTHLY
  else if decide (s = "combined") then Ok COMBINED
  else Raise ValueError.

Module LumpSumInput.
Record t : Type := Build {
  target_amount : R;
  years : R;
  annual_rate_accum : R;
  investment_type : InvestmentType;
  one_time_investment : R
}.
End LumpSumInput.

Module RentaInput.
Record t : Type := Build {
  monthly_rent : R;
  years_rent : R;
  annual_rate_rent : R;
  years_saving : R;
  annual_rate_accum : R;
  investment_type : InvestmentType;
  one_time_investment : R
}.
End RentaInput.

(** The values a result dictionary holds, and the dictionary itself
    ([Dict[str, Any]]). *)
Inductive value : Type :=
| VFloat (x : R)
| VStr (s : string).

Abbreviation dict := (gmap string value).

(** i = (1 + p_a)^(1/12) - 1 *)
Definition eff_monthly_rate (annual_rate : R) : result R :=
  let* p := float_pow (1 + annual_rate) (1 / 12) in
  Ok (p - 1).

Definition fv_lump_sum (pv i : R) (n_months : Z) : result R :=
  let* p := float_pow (1 + i) (IZR n_months) in
  Ok (pv * p).

Definition pv_from_fv (fv i : R) (n_months : Z) : result R :=
  let* p := float_pow (1 + i) (IZR n_months) in
  float_div fv p.

Definition fv_annuity (monthly_payment i : R) (n_months : Z) : result R :=
  if Req_dec_T i 0 then Ok (monthly_payment * IZR n_months)
  else
    let* p := float_pow (1 + i) (IZR n_months) in
    float_div (monthly_payment * (p - 1)) i.

Definition annuity_from_fv (fv i : R) (n_months : Z) : result R :=
  if Req_dec_T i 0 then float_div fv (IZR n_months)
  else
    let* p := float_pow (1 + i) (IZR n_months) in
    float_div (fv * i) (p - 1).

Definition pv_renta_required (monthly_rent annual_rate_rent years_rent : R)
  : result R :=
  let* i2 := eff_monthly_rate annual_rate_rent in
  let n := round (years_rent * 12) in
  if Req_dec_T i2 0 then Ok (monthly_rent * IZR n)
  else
    let* p := float_pow (1 + i2) (IZR (- n)) in
    float_div (monthly_rent * (1 - p)) i2.

Definition compute_lump_sum (input_data : LumpSumInput.t) : result dict :=
  let* i := eff_monthly_rate (LumpSumInput.annual_rate_accum input_data) in
  let n := round (LumpSumInput.years input_data * 12) in
  let result : dict :=
    list_to_map
      [ ("goal_type", VStr "lump_sum");
        ("target_amount", VFloat (LumpSumInput.target_amount input_data));
        ("years", VFloat (LumpSumInput.years input_data));
        ("annual_rate_accum",
          VFloat (LumpSumInput.annual_rate_accum input_data));
        ("investment_type",
          VStr (InvestmentType_value
                  (LumpSumInput.investment_type input_data))) ] in
  match LumpSumInput.investment_type input_data with
  | ONE_TIME =>
      let* pv_needed :=
        pv_from_fv (LumpSumInput.target_amount input_data) i n in
      Ok (<["required_wealth_today" := VFloat pv_needed]> result)
  | MONTHLY =>
      let* monthly :=
        annuity_from_fv (LumpSumInput.target_amount input_data) i n in
      Ok (<["monthly_investment" := VFloat monthly]> result)
  | COMBINED =>
      let* fv_one_time :=
        fv_lump_sum (LumpSumInput.one_time_investment input_data) i n in
      let remaining := LumpSumInput.target_amount input_data - fv_one_time in
      let remaining := if Rlt_dec remaining 0 then 0 else remaining in
      let* monthly := annuity_from_fv remaining i n in
      Ok (<["target_amount_remaining_for_monthly" := VFloat remaining]>
          (<["fv_one_time_investment" := VFloat fv_one_time]>
           (<["monthly_investment" := VFloat monthly]>
            (<["one_time_investment" :=
                 VFloat (LumpSumInput.one_time_investment input_data)]>
             result))))
  end.

Definition compute_renta (input_data : RentaInput.t) : result dict :=
  let* required_wealth_at_rent_start :=
    pv_renta_required (RentaInput.monthly_rent input_data)
                      (RentaInput.annual_rate_rent input_data)
                      (RentaInput.years_rent input_data) in
  let* i1 := eff_monthly_rate (RentaInput.annual_rate_accum input_data) in
  let m := round (RentaInput.years_saving input_data * 12) in
  let result : dict :=
    list_to_map
      [ ("goal_type", VStr "renta");
        ("monthly_rent", VFloat (RentaInput.monthly_rent input_data));
        ("years_rent", VFloat (RentaInput.years_rent input_data));
        ("annual_rate_rent", VFloat (RentaInput.annual_rate_rent input_data));
        ("years_saving", VFloat (RentaInput.years_saving input_data));
        ("annual_rate_accum",
          VFloat (RentaInput.annual_rate_accum input_data));
        ("investment_type",
          VStr (InvestmentType_value (RentaInput.investment_type input_data)));
        ("required_wealth_at_rent_start",
          VFloat required_wealth_at_rent_start) ] in
  match RentaInput.investment_type input_data with
  | ONE_TIME =>
      let* pv_today := pv_from_fv required_wealth_at_rent_start i1 m in
      Ok (<["required_wealth_today" := VFloat pv_today]> result)
  | MONTHLY =>
      let* monthly := annuity_from_fv required_wealth_at_rent_start i1 m in
      Ok (<["monthly_investment" := VFloat monthly]> result)
  | COMBINED =>
      let* fv_one_time :=
        fv_lump_sum (RentaInput.one_time_investment input_data) i1 m in
      let remaining := required_wealth_at_rent_start - fv_one_time in
      let remaining := if Rlt_dec remaining 0 then 0 else remaining in
      let* monthly := annuity_from_fv remaining i1 m in
      Ok (<["target_amount_remaining_for_monthly" := VFloat remaining]>
          (<["fv_one_time_investment" := VFloat fv_one_time]>
           (<["monthly_investment" := VFloat monthly]>
            (<["one_time_investment" :=
                 VFloat (RentaInput.one_time_investment input_data)]>
             result))))
  end.

End Kalkulacka.

(* ================================================================== *)
(** ** The value of a lump sum in binary64                              *)
(* ================================================================== *)

(** [fv_lump_sum] and [pv_from_fv] once more, on primitive floats, which are
    the binary64 numbers of Python with their rounding. *)
Module Binary64.
Import Stdlib.Floats.PrimFloat.
Local Open Scope float_scope.

(** The outcome of evaluating an expression: a float, a ZeroDivisionError, or
    an expression this module does not follow. *)
Inductive outcome : Type :=
| Value (x : float)
| DivisionByZero
| NotFollowed.

Definition bind (m : outcome) (k : float -> outcome) : outcome :=
  match m with
  | Value x => k x
  | DivisionByZero => DivisionByZero
  | NotFollowed => NotFollowed
  end.

(** [x / y] on floats: a divisor equal to zero (of either sign) raises. *)
Definition float_div (x y : float) : outcome :=
  if (y =? 0) then DivisionByZero else Value (x / y).

(** [x ** n] for an [int] exponent, at the two exponents where the result is
    exact whatever the base: [x ** 0] is 1.0 and [x ** 1] is [x].  Other
    exponents go to the platform's [pow] and are not followed. *)
Definition float_pow (x : float) (n : Z) : outcome :=
  match n with
  | 0%Z => Value 1
  | 1%Z => Value x
  | _ => NotFollowed
  end.

Definition fv_lump_sum (pv i : float) (n_months : Z) : outcome :=
  bind (float_pow (1 + i) n_months) (fun p => Value (pv * p)).

Definition pv_from_fv (fv i : float) (n_months : Z) : outcome :=
  bind (float_pow (1 + i) n_months) (fun p => float_div fv p).

(** The present value of the future value of [pv]. *)
Definition round_trip (pv i : float) (n_months : Z) : outcome :=
  bind (fv_lump_sum pv i n_months) (fun fv => pv_from_fv fv i n_months).

(** [x < y] on floats. *)
Definition lt (x y : float) : Prop := (x <? y) = true.

(** The floats Python reads from the literals [-1.0] and [1000.0], and from
    [0.1], which is not a binary fraction. *)
Definition minus_one : float := -1.

Definition thousand : float := 1000.

Definition tenth : float := 0x1.999999999999ap-4.

(** The float Python writes [999.9999999999999]: the one just below 1000. *)
Definition just_below_1000 : float := 0x1.f3fffffffffffp+9.

End Binary64.

(* ================================================================== *)
(** ** app.py                                                           *)
(* ================================================================== *)

Module App.
Import Py Kalkulacka.
Local Open Scope R_scope.

(** A field of the JSON body of a request: left out, [null], or given. *)
Inductive field (A : Type) : Type :=
| Absent
| Null
| Given (a : A).

Arguments Absent {A}.
Arguments Null {A}.
Arguments Given {A} a.

(** The JSON body of [POST /calc], before validation.  The two string fields
    carry whatever string the caller sent; the numeric fields, when given,
    carry a JSON number (bodies with other JSON in a numeric field are not
    represented). *)
Module Body.
Record t : Type := Build {
  goal_type : field string;
  investment_type : field string;
  one_time_investment : field R;
  target_amount : field R;
  years : field R;
  annual_rate_accum : field R;
  monthly_rent : field R;
  years_rent : field R;
  annual_rate_rent : field R;
  years_saving : field R
}.
End Body.

(** [class CalcRequest(BaseModel)]: the validated request. *)
Module CalcRequest.
Record t : Type := Build {
  goal_type : string;
  investment_type : string;
  one_time_investment : option R;
  target_amount : option R;
  years : option R;
  annual_rate_accum : option R;
  monthly_rent : option R;
  years_rent : option R;
  annual_rate_rent : option R;
  years_saving : option R
}.
End CalcRequest.

(** A field declared [Literal[...]] with no default: it must be given and be
    one of the listed strings. *)
Definition validate_literal (allowed : list string) (f : field string)
  : option string :=
  match f with
  | Given s => if decide (s ∈ allowed) then Some s else None
  | Absent | Null => None
  end.

(** A field declared [Optional[float] = default]. *)
Definition validate_optional (default : option R) (f : field R) : option R :=
  match f with
  | Absent => default
  | Null => None
  | Given x => Some x
  end.

(** The framework's validation of the body against [CalcRequest], run before
    [calc] is entered; [None] when the body is rejected. *)
Definition validate (b : Body.t) : option CalcRequest.t :=
  match validate_literal ["lump_sum"; "renta"] (Body.goal_type b),
        validate_literal ["one_time"; "monthly"; "combined"]
                         (Body.investment_type b) with
  | Some g, Some it =>
      Some {| CalcRequest.goal_type := g;
              CalcRequest.investment_type := it;
              CalcRequest.one_time_investment :=
                validate_optional (Some 0) (Body.one_time_investment b);
              CalcRequest.target_amount :=
                validate_optional None (Body.target_amount b);
              CalcRequest.years := validate_optional None (Body.years b);
              CalcRequest.annual_rate_accum :=
                validate_optional None (Body.annual_rate_accum b);
              CalcRequest.monthly_rent :=
                validate_optional None (Body.monthly_rent b);
              CalcRequest.years_rent :=
                validate_optional None (Body.years_rent b);
              CalcRequest.annual_rate_rent :=
                validate_optional None (Body.annual_rate_rent b);
              CalcRequest.years_saving :=
                validate_optional None (Body.years_saving b) |}
  | _, _ => None
  end.

(** [getattr(req, k)] on the numeric fields. *)
Definition getattr (req : CalcRequest.t) (k : string) : option R :=
  if decide (k = "one_time_investment") then CalcRequest.one_time_investment req
  else if decide (k = "target_amount") then CalcRequest.target_amount req
  else if decide (k = "years") then CalcRequest.years req
  else if decide (k = "annual_rate_accum") then CalcRequest.annual_rate_accum req
  else if decide (k = "monthly_rent") then CalcRequest.monthly_rent req
  else if decide (k = "years_rent") then CalcRequest.years_rent req
  else if decide (k = "annual_rate_rent") then CalcRequest.annual_rate_rent req
  else if decide (k = "years_saving") then CalcRequest.years_saving req
  else None.

(** [[k for k in names if getattr(req, k) is None]] *)
Definition missing_of (req : CalcRequest.t) (names : list string)
  : list string :=
  filter (fun k => getattr req k = None) names.

(** [x or 0.0] on an optional float. *)
Definition or_zero (x : option R) : R :=
  match x with
  | Some v => if Req_dec_T v 0 then 0 else v
  | None => 0
  end.

(** The [detail] of an [HTTPException]. *)
Inductive detail : Type :=
| Text (s : string)
| StrOf (e : exception)
| ValidationErrors.

(** What the endpoint answers: the result record with status 200, or an
    error status with its detail; [Unmodelled] where the calculation left
    the real numbers. *)
Inductive response : Type :=
| Success (body : dict)
| HTTPError (status_code : Z) (d : detail)
| Unmodelled.

Definition status_of (r : response) : option Z :=
  match r with
  | Success _ => Some 200%Z
  | HTTPError s _ => Some s
  | Unmodelled => None
  end.

(** The [try] block of [calc]: an [HTTPException] raised inside it is
    re-raised (here: returned as it is), any other exception becomes a 500
    carrying its text. *)
Definition guard (m : result response) : response :=
  match m with
  | Ok r => r
  | Raise e => HTTPError 500 (StrOf e)
  | OutOfReals => Unmodelled
  end.

Definition lump_sum_names : list string :=
  ["target_amount"; "years"; "annual_rate_accum"].

Definition renta_names : list string :=
  ["monthly_rent"; "years_rent"; "annual_rate_rent"; "years_saving";
   "annual_rate_accum"].

(** [req.f] of a field that was found not to be [None]. *)
Definition the (x : option R) : R := default 0 x.

Definition calc (req : CalcRequest.t) : response :=
  guard (
    let* inv_type := InvestmentType_of_value (CalcRequest.investment_type req) in
    if decide (CalcRequest.goal_type req = "lump_sum") then
      let missing := missing_of req lump_sum_names in
      if decide (missing <> []) then
        Ok (HTTPError 400
              (Text ("Missing fields for lump_sum: " +:+ str_list missing)))
      else
        let inp :=
          {| LumpSumInput.target_amount := the (CalcRequest.target_amount req);
             LumpSumInput.years := the (CalcRequest.years req);
             LumpSumInput.annual_rate_accum :=
               the (CalcRequest.annual_rate_accum req);
             LumpSumInput.investment_type := inv_type;
             LumpSumInput.one_time_investment :=
               or_zero (CalcRequest.one_time_investment req) |} in
        rmap Success (compute_lump_sum inp)
    else if decide (CalcRequest.goal_type req = "renta") then
      let missing := missing_of req renta_names in
      if decide (missing <> []) then
        Ok (HTTPError 400
              (Text ("Missing fields for renta: " +:+ str_list missing)))
      else
        let inp :=
          {| RentaInput.monthly_rent := the (CalcRequest.monthly_rent req);
             RentaInput.years_rent := the (CalcRequest.years_rent req);
             RentaInput.annual_rate_rent :=
               the (CalcRequest.annual_rate_rent req);
             RentaInput.years_saving := the (CalcRequest.years_saving req);
             RentaInput.annual_rate_accum :=
               the (CalcRequest.annual_rate_accum req);
             RentaInput.investment_type := inv_type;
             RentaInput.one_time_investment :=
               or_zero (CalcRequest.one_time_investment req) |} in
        rmap Success (compute_renta inp)
    else Ok (HTTPError 400 (Text "Unknown goal_type"))).

(** [POST /calc]: the body is validated against [CalcRequest] first, and a
    body that fails validation is answered with status 422 without [calc]
    being entered. *)
Definition post_calc (b : Body.t) : response :=
  match validate b with
  | Some req => calc req
  | None => HTTPError 422 ValidationErrors
  end.

End App.

(* ================================================================== *)
(** ** Formulas in the words of the specification                       *)
(* ================================================================== *)

Module Spec.
Import Py Kalkulacka App.
Local Open Scope R_scope.

(** Effective monthly rate: i = (1 + annual_rate)^(1/12) - 1. *)
Definition effective_monthly_rate (annual_rate : R) : R :=
  Rpower (1 + annual_rate) (1 / 12) - 1.

(** Monthly payment from target future value:
    if i = 0: fv/n; else fv·i/((1+i)^n − 1). *)
Definition monthly_payment (fv i : R) (n : Z) : R :=
  if Req_dec_T i 0 then fv / IZR n
  else fv * i / (powerRZ (1 + i) n - 1).

(** The value of an annuity of one unit a month drawn for [k] months, at the
    start of the drawdown, with monthly growth factor [q]:
    1/q + 1/q^2 + ... + 1/q^k. *)
Fixpoint annuity_factor (q : R) (k : nat) : R :=
  match k with
  | O => 0
  | S k' => annuity_factor q k' + (/ q) ^ (S k')
  end.

(** Remaining target of the combined plan: max(0, target − fv_one_time). *)
Definition remaining_target (target fv_one_time : R) : R :=
  Rmax 0 (target - fv_one_time).

(** The keys a result record holds for the accumulation branch taken. *)
Definition branch_keys : list string :=
  ["required_wealth_today"; "monthly_investment"; "one_time_investment";
   "fv_one_time_investment"; "target_amount_remaining_for_monthly"].

(** The branch-specific fields of a result record. *)
Definition branch_fields (d : dict) : dict :=
  filter (fun kv => kv.1 ∈ branch_keys) d.

(** The accumulation phase of a renta read as a lump-sum goal: the wealth
    required at the start of the drawdown is the target, the saving years are
    the horizon. *)
Definition lump_sum_of_renta (inp : RentaInput.t) (required_wealth : R)
  : LumpSumInput.t :=
  {| LumpSumInput.target_amount := required_wealth;
     LumpSumInput.years := RentaInput.years_saving inp;
     LumpSumInput.annual_rate_accum := RentaInput.annual_rate_accum inp;
     LumpSumInput.investment_type := RentaInput.investment_type inp;
     LumpSumInput.one_time_investment := RentaInput.one_time_investment inp |}.


(** *** The formulas evaluated with the operators of the program *)

(** i = (1 + annual_rate)^(1/12) − 1, with Python's [**]. *)
Definition eval_effective_monthly_rate (annual_rate : R) : result R :=
  let* p := float_pow (1 + annual_rate) (1 / 12) in
  Ok (p - 1).

(** if i = 0: fv/n; else fv·i/((1+i)^n − 1), with Python's [/] and [**]. *)
Definition eval_monthly_payment (fv i : R) (n : Z) : result R :=
  if Req_dec_T i 0 then float_div fv (IZR n)
  else
    let* p := float_pow (1 + i) (IZR n) in
    float_div (fv * i) (p - 1).

(** The monthly investment of a lump-sum goal that is saved for monthly: the
    monthly payment for the target, at the effective monthly rate i of the
    annual rate and over n = round(years·12) months. *)
Definition monthly_investment (inp : LumpSumInput.t) : result R :=
  let* i := eval_effective_monthly_rate (LumpSumInput.annual_rate_accum inp) in
  let n := round (LumpSumInput.years inp * 12) in
  eval_monthly_payment (LumpSumInput.target_amount inp) i n.

(** *** Ordinary inputs *)

(** An annual rate between −50 % and +100 %. *)
Definition ordinary_rate (r : R) : Prop := -1 / 2 <= r <= 1.

(** A horizon of at least one month and at most a hundred years. *)
Definition ordinary_years (y : R) : Prop := 1 / 12 <= y <= 100.

(** A number of months of at most a hundred years. *)
Definition ordinary_months (n : Z) : Prop := (0 <= n <= 1200)%Z.

(** *** The fields a request must carry *)






End Spec.

(* ================================================================== *)
(** ** Inputs used as examples                                          *)
(* ================================================================== *)

Module Scenarios.
Import Kalkulacka App.
Local Open Scope R_scope.

(** The first manual test of the source: 1 000 000 in 20 years at 7 % a
    year, saved monthly. *)
Definition test1 : LumpSumInput.t :=
  {| LumpSumInput.target_amount := 1000000;
     LumpSumInput.years := 20;
     LumpSumInput.annual_rate_accum := 7 / 100;
     LumpSumInput.investment_type := MONTHLY;
     LumpSumInput.one_time_investment := 0 |}.





(** A lump-sum goal two weeks away: the horizon is positive and rounds to no
    month at all. *)
Definition two_weeks : LumpSumInput.t :=
  {| LumpSumInput.target_amount := 1000;
     LumpSumInput.years := 1 / 25;
     LumpSumInput.annual_rate_accum := 0;
     LumpSumInput.investment_type := MONTHLY;
     LumpSumInput.one_time_investment := 0 |}.

(** The first manual test of the source with a horizon of two weeks. *)
Definition test1_two_weeks : LumpSumInput.t :=
  {| LumpSumInput.target_amount := 1000000;
     LumpSumInput.years := 1 / 25;
     LumpSumInput.annual_rate_accum := 7 / 100;
     LumpSumInput.investment_type := MONTHLY;
     LumpSumInput.one_time_investment := 0 |}.

(** A lump-sum goal at an annual rate of −100 %, to be paid at once. *)
Definition total_loss : LumpSumInput.t :=
  {| LumpSumInput.target_amount := 1000;
     LumpSumInput.years := 1;
     LumpSumInput.annual_rate_accum := -1;
     LumpSumInput.investment_type := ONE_TIME;
     LumpSumInput.one_time_investment := 0 |}.

(** The first manual test of the source at a rate of 0. *)
Definition test1_no_interest : LumpSumInput.t :=
  {| LumpSumInput.target_amount := 1000000;
     LumpSumInput.years := 20;
     LumpSumInput.annual_rate_accum := 0;
     LumpSumInput.investment_type := MONTHLY;
     LumpSumInput.one_time_investment := 0 |}.

(** A lump-sum request that leaves [years] out. *)
Definition body_without_years : Body.t :=
  {| Body.goal_type := Given "lump_sum";
     Body.investment_type := Given "monthly";
     Body.one_time_investment := Absent;
     Body.target_amount := Given 1000000;
     Body.years := Absent;
     Body.annual_rate_accum := Given (7 / 100);
     Body.monthly_rent := Absent;
     Body.years_rent := Absent;
     Body.annual_rate_rent := Absent;
     Body.years_saving := Absent |}.


(** A renta request that leaves [years_rent] out and sets [years_saving] to
    null. *)
Definition body_renta_without_years : Body.t :=
  {| Body.goal_type := Given "renta";
     Body.investment_type := Given "monthly";
     Body.one_time_investment := Absent;
     Body.target_amount := Absent;
     Body.years := Absent;
     Body.annual_rate_accum := Given (7 / 100);
     Body.monthly_rent := Given 30000;
     Body.years_rent := Absent;
     Body.annual_rate_rent := Given (5 / 100);
     Body.years_saving := Null |}.

(** A request for a goal type the calculator does not have. *)
Definition body_unknown_goal : Body.t :=
  {| Body.goal_type := Given "mortgage";
     Body.investment_type := Given "monthly";
     Body.one_time_investment := Absent;
     Body.target_amount := Given 1000000;
     Body.years := Given 20;
     Body.annual_rate_accum := Given (7 / 100);
     Body.monthly_rent := Absent;
     Body.years_rent := Absent;
     Body.annual_rate_rent := Absent;
     Body.years_saving := Absent |}.

End Scenarios.

(* ================================================================== *)
(** ** The shape of the result records                                  *)
(* ================================================================== *)

Module Ledger.
Import Kalkulacka.
Local Open Scope R_scope.

(** The keys every lump-sum result holds, and every renta result. *)
Definition lump_sum_base_keys : list string :=
  ["goal_type"; "target_amount"; "years"; "annual_rate_accum";
   "investment_type"].

Definition renta_base_keys : list string :=
  ["goal_type"; "monthly_rent"; "years_rent"; "annual_rate_rent";
   "years_saving"; "annual_rate_accum"; "investment_type";
   "required_wealth_at_rent_start"].

(** The keys the branch taken adds. *)
Definition keys_of_branch (t : InvestmentType) : list string :=
  match t with
  | ONE_TIME => ["required_wealth_today"]
  | MONTHLY => ["monthly_investment"]
  | COMBINED =>
      ["one_time_investment"; "monthly_investment"; "fv_one_time_investment";
       "target_amount_remaining_for_monthly"]
  end.

(** The part of a result record that repeats the input: what the calculator
    writes before it branches. *)
Definition lump_sum_header (inp : LumpSumInput.t) : dict :=
  list_to_map
    [ ("goal_type", VStr "lump_sum");
      ("target_amount", VFloat (LumpSumInput.target_amount inp));
      ("years", VFloat (LumpSumInput.years inp));
      ("annual_rate_accum", VFloat (LumpSumInput.annual_rate_accum inp));
      ("investment_type",
        VStr (InvestmentType_value (LumpSumInput.investment_type inp))) ].

Definition renta_header (inp : RentaInput.t) (required_wealth : R) : dict :=
  list_to_map
    [ ("goal_type", VStr "renta");
      ("monthly_rent", VFloat (RentaInput.monthly_rent inp));
      ("years_rent", VFloat (RentaInput.years_rent inp));
      ("annual_rate_rent", VFloat (RentaInput.annual_rate_rent inp));
      ("years_saving", VFloat (RentaInput.years_saving inp));
      ("annual_rate_accum", VFloat (RentaInput.annual_rate_accum inp));
      ("investment_type",
        VStr (InvestmentType_value (RentaInput.investment_type inp)));
      ("required_wealth_at_rent_start", VFloat required_wealth) ].


(** The number stored under a key of a result record, if there is one. *)
Definition number_at (k : string) (d : dict) : option R :=
  match d !! k with
  | Some (VFloat x) => Some x
  | _ => None
  end.

End Ledger.

(* ================================================================== *)
(** ** More inputs used as examples                                     *)
(* ================================================================== *)

Module MoreScenarios.
Import Kalkulacka App.
Local Open Scope R_scope.

(** The third manual test of the source: a renta of 30 000 a month for 30
    years at 5 %, saved for monthly over 18 years at 7 %. *)
Definition test3 : RentaInput.t :=
  {| RentaInput.monthly_rent := 30000;
     RentaInput.years_rent := 30;
     RentaInput.annual_rate_rent := 5 / 100;
     RentaInput.years_saving := 18;
     RentaInput.annual_rate_accum := 7 / 100;
     RentaInput.investment_type := MONTHLY;
     RentaInput.one_time_investment := 0 |}.

(** A goal of 120 in one year, no interest, with 500 deposited today. *)
Definition combined_covered : LumpSumInput.t :=
  {| LumpSumInput.target_amount := 120;
     LumpSumInput.years := 1;
     LumpSumInput.annual_rate_accum := 0;
     LumpSumInput.investment_type := COMBINED;
     LumpSumInput.one_time_investment := 500 |}.

End MoreScenarios.

(* ================================================================== *)
(** ** The inputs the endpoint hands to the calculators                 *)
(* ================================================================== *)

Module Requests.
Import Py Kalkulacka App.
Local Open Scope R_scope.

(** The input records [calc] builds from a request with no field missing. *)
Definition lump_sum_input_of (req : CalcRequest.t) (t : InvestmentType)
  : LumpSumInput.t :=
  {| LumpSumInput.target_amount := the (CalcRequest.target_amount req);
     LumpSumInput.years := the (CalcRequest.years req);
     LumpSumInput.annual_rate_accum := the (CalcRequest.annual_rate_accum req);
     LumpSumInput.investment_type := t;
     LumpSumInput.one_time_investment :=
       or_zero (CalcRequest.one_time_investment req) |}.

Definition renta_input_of (req : CalcRequest.t) (t : InvestmentType)
  : RentaInput.t :=
  {| RentaInput.monthly_rent := the (CalcRequest.monthly_rent req);
     RentaInput.years_rent := the (CalcRequest.years_rent req);
     RentaInput.annual_rate_rent := the (CalcRequest.annual_rate_rent req);
     RentaInput.years_saving := the (CalcRequest.years_saving req);
     RentaInput.annual_rate_accum := the (CalcRequest.annual_rate_accum req);
     RentaInput.investment_type := t;
     RentaInput.one_time_investment :=
       or_zero (CalcRequest.one_time_investment req) |}.

(** The deposit a request stands for: the number given, and zero when the
    field is left out or null. *)
Definition deposit_of (f : field R) : R :=
  match f with
  | Given x => x
  | Absent | Null => 0
  end.

(** What the endpoint makes of a calculator's outcome: the record with
    status 200, or a 500 that carries the text of the exception. *)
Definition answer_of (m : result dict) : response :=
  match m with
  | Ok res => Success res
  | Raise e => HTTPError 500 (StrOf e)
  | OutOfReals => Unmodelled
  end.



(** The same request with a horizon of two weeks. *)
Definition body_two_weeks : Body.t :=
  {| Body.goal_type := Given "lump_sum";
     Body.investment_type := Given "monthly";
     Body.one_time_investment := Absent;
     Body.target_amount := Given 1000000;
     Body.years := Given (1 / 25);
     Body.annual_rate_accum := Given (7 / 100);
     Body.monthly_rent := Absent;
     Body.years_rent := Absent;
     Body.annual_rate_rent := Absent;
     Body.years_saving := Absent |}.

End Requests.

(* ================================================================== *)
(** ** The console helpers of kalkulacka.py                             *)
(* ================================================================== *)

Module Console.
Import Stdlib.Strings.Ascii.
Import Py Kalkulacka.
Local Open Scope R_scope.

(** *** Strings

    A string is the sequence of the bytes of its UTF-8 encoding; the methods
    below act on ASCII characters, which no byte of a longer character
    equals. *)

(** The ASCII characters [str.strip()] removes: tab to carriage return,
    the four separators 28 to 31, and the space.  (Whitespace outside ASCII
    is not followed.) *)
Definition is_space (c : Ascii.ascii) : bool :=
  let n := Ascii.N_of_ascii c in
  ((9 <=? n)%N && (n <=? 13)%N) || ((28 <=? n)%N && (n <=? 32)%N).

Fixpoint lstrip (s : string) : string :=
  match s with
  | EmptyString => EmptyString
  | String c s' => if is_space c then lstrip s' else s
  end.

(** A character is dropped from the end when it is whitespace and all that
    follows it is dropped. *)
Fixpoint rstrip (s : string) : string :=
  match s with
  | EmptyString => EmptyString
  | String c s' =>
      match rstrip s' with
      | EmptyString => if is_space c then EmptyString else String c EmptyString
      | r => String c r
      end
  end.

(** [s.strip()] *)
Definition strip (s : string) : string := rstrip (lstrip s).

(** [s.replace(c, "")] for a one-character [c]. *)
Fixpoint remove_char (c : Ascii.ascii) (s : string) : string :=
  match s with
  | EmptyString => EmptyString
  | String a s' =>
      if Ascii.eqb a c then remove_char c s' else String a (remove_char c s')
  end.

(** [s.replace(c, d)] for one-character [c] and [d]. *)
Fixpoint replace_char (c d : Ascii.ascii) (s : string) : string :=
  match s with
  | EmptyString => EmptyString
  | String a s' =>
      String (if Ascii.eqb a c then d else a) (replace_char c d s')
  end.

(** Every character of the string satisfies the test. *)
Fixpoint all_chars (P : Ascii.ascii -> bool) (s : string) : bool :=
  match s with
  | EmptyString => true
  | String c s' => P c && all_chars P s'
  end.

Definition is_digit (c : Ascii.ascii) : bool :=
  let n := Ascii.N_of_ascii c in (48 <=? n)%N && (n <=? 57)%N.

(** A character of ASCII, and a string of such characters only: on these
    [str.strip()] removes the characters of [is_space] and no other. *)
Definition is_ascii (c : Ascii.ascii) : bool :=
  (Ascii.N_of_ascii c <? 128)%N.

Definition ascii_only (s : string) : bool := all_chars is_ascii s.

(** The only whitespace of a string is the space. *)
Definition spaces_only (s : string) : bool :=
  all_chars (fun a => negb (is_space a) || Ascii.eqb a " "%char) s.

(** What is written for [k] lines that were turned down: the prompt and the
    complaint, [k] times over. *)
Definition turned_down (prompt complaint : string) (k : nat) : list string :=
  concat (repeat [prompt; complaint +:+ String (Ascii.ascii_of_nat 10) EmptyString] k).

(** The line feed [print] ends a line with. *)
Definition newline : string := String (Ascii.ascii_of_nat 10) EmptyString.

(** *** pretty *)

(** The decimal digits of a natural number. *)
Definition digits (n : N) : string := NilZero.string_of_uint (N.to_uint n).

(** The digits taken from the right, a separator put in after every third
    one that has a digit to its left; [k] counts the digits of the group
    being filled. *)
Fixpoint group_from_right (sep : Ascii.ascii) (l : list Ascii.ascii) (k : nat)
  : list Ascii.ascii :=
  match l with
  | [] => []
  | d :: l' =>
      match k with
      | 3%nat => sep :: d :: group_from_right sep l' 1
      | _ => d :: group_from_right sep l' (S k)
      end
  end.

Definition group_thousands (sep : Ascii.ascii) (s : string) : string :=
  String.string_of_list_ascii
    (rev (group_from_right sep (rev (String.list_ascii_of_string s)) 0)).

(** [f"{num:,.0f}"]: the number rounded to an integer, ties to even, with a
    minus sign when the number is negative (also when it rounds to zero), the
    digits in groups of three separated by commas. *)
Definition format_thousands (num : R) : string :=
  (if Rlt_dec num 0 then "-" else "")
  +:+ group_thousands ","%char (digits (Z.abs_N (round num))).

Definition pretty (num : R) : string :=
  replace_char ","%char " "%char (format_thousands num).

(** *** The console: the lines still to be read and what was written *)

Record console : Type := Console {
  stdin : list string;
  stdout : list string
}.

(** A console function returns with a value and the console it leaves, or
    ends in the EOFError [input] raises when nothing is left to read. *)
Inductive outcome (A : Type) : Type :=
| Returned (a : A) (c : console)
| EOFError (c : console).

Arguments Returned {A} a c.
Arguments EOFError {A} c.

(** [print(s)] *)
Definition print (s : string) (c : console) : console :=
  {| stdin := stdin c; stdout := stdout c ++ [s +:+ newline] |}.

(** [input(prompt)]: the prompt is written, a line is read. *)
Definition input (prompt : string) (c : console) : outcome string :=
  match stdin c with
  | [] => EOFError {| stdin := []; stdout := stdout c ++ [prompt] |}
  | line :: rest =>
      Returned line {| stdin := rest; stdout := stdout c ++ [prompt] |}
  end.

Definition not_a_number : string :=
  "Zadejte prosím číslo (např. 100000 nebo 7.5).".

Definition your_choice : string := "Vaše volba: ".

Definition invalid_choice : string := "Neplatná volba, zkuste to znovu.".

(** What [ask_float] hands to [float]. *)
Definition normalize (raw : string) : string :=
  replace_char ","%char "."%char (remove_char " "%char (strip raw)).

Section Asking.

(** [float(s)] on a string: the number read, [None] for ValueError. *)
Variable float_of_str : string -> option R.

(** The loop of [ask_float], by recursion on the lines still to be read:
    every turn reads one line, so the loop ends with the input at the
    latest. *)
Fixpoint ask_float_loop (prompt : string) (lines : list string)
         (written : list string) : outcome R :=
  let written := written ++ [prompt +:+ " "] in
  match lines with
  | [] => EOFError {| stdin := []; stdout := written |}
  | raw :: rest =>
      match float_of_str (normalize raw) with
      | Some x => Returned x {| stdin := rest; stdout := written |}
      | None =>
          ask_float_loop prompt rest (written ++ [not_a_number +:+ newline])
      end
  end.

Definition ask_float (prompt : string) (c : console) : outcome R :=
  ask_float_loop prompt (stdin c) (stdout c).

End Asking.

(** [k in choices] for a dictionary given as the list of its items. *)
Definition has_key (choices : list (string * string)) (k : string) : bool :=
  bool_decide (k ∈ map fst choices).

(** The menu lines of [ask_choice]. *)
Definition menu_line (item : string * string) : string :=
  "  " +:+ fst item +:+ ") " +:+ snd item +:+ newline.

Fixpoint ask_choice_loop (choices : list (string * string))
         (lines : list string) (written : list string) : outcome string :=
  let written := written ++ [your_choice] in
  match lines with
  | [] => EOFError {| stdin := []; stdout := written |}
  | raw :: rest =>
      let ans := strip raw in
      if has_key choices ans
      then Returned ans {| stdin := rest; stdout := written |}
      else ask_choice_loop choices rest
             (written ++ [invalid_choice +:+ newline])
  end.

Definition ask_choice (prompt : string) (choices : list (string * string))
           (c : console) : outcome string :=
  ask_choice_loop choices (stdin c)
    (stdout c ++ [prompt +:+ newline] ++ map menu_line choices).

(** *** Examples *)

(** A reader of numbers that knows the numeral 7.5 only. *)
Definition reads_seven_and_a_half (s : string) : option R :=
  if decide (s = "7.5") then Some (15 / 2) else None.

(** The menu of the investment styles, as [interactive_lump_sum] passes it. *)
Definition style_menu : list (string * string) :=
  [ ("1", "Jednorázově dnes");
    ("2", "Pravidelně měsíčně");
    ("3", "Kombinace – část jednorázově, zbytek měsíčně") ].

End Console.

(* ================================================================== *)
(** ** The manual tests of kalkulacka.py                                *)
(* ================================================================== *)

Module ManualTests.
Import Py Kalkulacka Console.
Local Open Scope R_scope.

(** Why a run of the tests would stop early: an exception of the
    arithmetic, a calculation that leaves the real numbers, a key that the
    result record does not hold, or an entry that is not a number. *)
Inductive failure : Type :=
| Raised (e : exception)
| LeftReals
| KeyError (k : string)
| NotANumber (k : string).

Inductive run : Type :=
| Finished (c : console)
| Stopped (c : console) (why : failure).

(** [res = compute(...)], and the rest of the run. *)
Definition computed (m : result dict) (c : console) (rest : dict -> run)
  : run :=
  match m with
  | Ok res => rest res
  | Raise e => Stopped c (Raised e)
  | OutOfReals => Stopped c LeftReals
  end.

(** [res[key]] as the number [pretty] is given, and the rest of the run. *)
Definition item (key : string) (res : dict) (c : console) (rest : R -> run)
  : run :=
  match res !! key with
  | Some (VFloat x) => rest x
  | Some (VStr _) => Stopped c (NotANumber key)
  | None => Stopped c (KeyError key)
  end.

Definition lump : LumpSumInput.t :=
  {| LumpSumInput.target_amount := 1000000;
     LumpSumInput.years := 20;
     LumpSumInput.annual_rate_accum := 7 / 100;
     LumpSumInput.investment_type := MONTHLY;
     LumpSumInput.one_time_investment := 0 |}.

Definition lump2 : LumpSumInput.t :=
  {| LumpSumInput.target_amount := 5000000;
     LumpSumInput.years := 18;
     LumpSumInput.annual_rate_accum := 7 / 100;
     LumpSumInput.investment_type := MONTHLY;
     LumpSumInput.one_time_investment := 0 |}.

Definition renta1 : RentaInput.t :=
  {| RentaInput.monthly_rent := 30000;
     RentaInput.years_rent := 30;
     RentaInput.annual_rate_rent := 5 / 100;
     RentaInput.years_saving := 18;
     RentaInput.annual_rate_accum := 7 / 100;
     RentaInput.investment_type := MONTHLY;
     RentaInput.one_time_investment := 0 |}.

Definition renta2 : RentaInput.t :=
  {| RentaInput.monthly_rent := 17874;
     RentaInput.years_rent := 30;
     RentaInput.annual_rate_rent := 5 / 100;
     RentaInput.years_saving := 18;
     RentaInput.annual_rate_accum := 8 / 100;
     RentaInput.investment_type := MONTHLY;
     RentaInput.one_time_investment := 0 |}.

Definition title1 : string :=
  "=== TEST 1: 1 000 000 Kč za 20 let, 7 % p.a., měsíční investice ===".

Definition expected1 : string := "Očekávám měsíční investici cca 1 970 Kč".

Definition title2 : string :=
  newline
  +:+ "=== TEST 2: 5 000 000 Kč za 18 let (216 měsíců), 7 % p.a., měsíčně ===".

Definition expected2 : string := "Očekávám měsíční investici cca 11 879 Kč".

Definition title3 : string :=
  newline +:+ "=== TEST 3: Renta 30 000 Kč, 30 let, 5 % p.a. v čerpání ===".

Definition expected3 : string := "Očekávám potřebný majetek cca 5 659 788 Kč".

Definition title4 : string :=
  newline
  +:+ "=== TEST 4: Renta – majetek 3 372 015 Kč, 18 let, 8 % p.a. (měsíční investice) ===".

Definition expected4 : string := "Očekávám měsíční investici cca 7 241 Kč".

(** [print("Výsledek kalkulačky:", s)]: the two arguments with a space
    between them. *)
Definition print_result (s : string) (c : console) : console :=
  print ("Výsledek kalkulačky:" +:+ " " +:+ s) c.

Definition run_manual_tests (c : console) : run :=
  let c := print title1 c in
  computed (compute_lump_sum lump) c (fun res1 =>
  let c := print expected1 c in
  item "monthly_investment" res1 c (fun v1 =>
  let c := print_result (pretty v1) c in
  let c := print title2 c in
  computed (compute_lump_sum lump2) c (fun res2 =>
  let c := print expected2 c in
  item "monthly_investment" res2 c (fun v2 =>
  let c := print_result (pretty v2) c in
  let c := print title3 c in
  computed (compute_renta renta1) c (fun res3 =>
  let c := print expected3 c in
  item "required_wealth_at_rent_start" res3 c (fun v3 =>
  let c := print_result (pretty v3) c in
  let c := print title4 c in
  computed (compute_renta renta2) c (fun res4 =>
  let c := print expected4 c in
  item "monthly_investment" res4 c (fun v4 =>
  let c := print_result (pretty v4) c in
  Finished c)))))))).

End ManualTests.

(* ================================================================== *)
(** ** Lemmas on the arithmetic                                         *)
(* ================================================================== *)

Module PyFacts.
Import Py.
Local Open Scope R_scope.

Lemma Int_part_IZR (z : Z) : Int_part (IZR z) = z.
Proof.
  symmetry. apply Int_part_spec. split; lra.
Qed.

Lemma frac_part_IZR (z : Z) : frac_part (IZR z) = 0.
Proof.
  unfold frac_part. rewrite Int_part_IZR. lra.
Qed.

Lemma frac_part_bounds (x : R) : 0 <= frac_part x < 1.
Proof.
  unfold frac_part. destruct (base_Int_part x). lra.
Qed.

Lemma is_integral_IZR (z : Z) : is_integral (IZR z) = true.
Proof.
  unfold is_integral. rewrite Int_part_IZR.
  destruct (Req_dec_T (IZR z) (IZR z)); [reflexivity | contradiction].
Qed.

Lemma is_integral_twelfth : is_integral (1 / 12) = false.
Proof.
  unfold is_integral.
  assert (H : Int_part (1 / 12) = 0%Z).
  { symmetry. apply Int_part_spec. split; lra. }
  rewrite H. destruct (Req_dec_T (1 / 12) 0); [lra | reflexivity].
Qed.

(** [x ** n] for an [int] exponent: the integer power, except that zero may
    not be raised to a negative power. *)
Lemma float_pow_int (x : R) (n : Z) :
  x <> 0 \/ (0 <= n)%Z ->
  float_pow x (IZR n) = Ok (powerRZ x n).
Proof.
  intros H. unfold float_pow.
  destruct (Req_dec_T (IZR n) 0) as [Hn | Hn].
  - apply eq_IZR in Hn. subst n. reflexivity.
  - assert (Hn' : n <> 0%Z) by (intros ->; apply Hn; reflexivity).
    destruct (Req_dec_T x 0) as [Hx | Hx].
    + destruct H as [H | H]; [contradiction|].
      destruct (Rlt_dec (IZR n) 0) as [Hlt | _].
      * apply lt_IZR in Hlt. lia.
      * subst x. destruct n as [|p|p]; try lia.
        simpl. rewrite pow_i; [reflexivity | lia].
    + destruct (Rlt_dec x 0) as [Hneg | Hpos].
      * rewrite is_integral_IZR, Int_part_IZR. reflexivity.
      * rewrite powerRZ_Rpower by lra. reflexivity.
Qed.

Lemma float_pow_zero_neg (n : Z) :
  (n < 0)%Z -> float_pow 0 (IZR n) = Raise ZeroDivisionError.
Proof.
  intros H. unfold float_pow.
  destruct (Req_dec_T (IZR n) 0) as [Hn | Hn].
  - apply eq_IZR in Hn. lia.
  - destruct (Req_dec_T 0 0) as [_ | Hx]; [|contradiction].
    destruct (Rlt_dec (IZR n) 0) as [_ | Hge]; [reflexivity|].
    exfalso. apply Hge. apply IZR_lt. exact H.
Qed.

Lemma float_div_ok (x y : R) : y <> 0 -> float_div x y = Ok (x / y).
Proof.
  intros H. unfold float_div. destruct (Req_dec_T y 0); [contradiction | reflexivity].
Qed.

Lemma float_div_zero (x : R) : float_div x 0 = Raise ZeroDivisionError.
Proof.
  unfold float_div. destruct (Req_dec_T 0 0); [reflexivity | contradiction].
Qed.


(** *** Rounding to months *)

Lemma round_IZR (z : Z) : round (IZR z) = z.
Proof.
  unfold round. rewrite frac_part_IZR, Int_part_IZR.
  destruct (Rlt_dec 0 (1 / 2)); [reflexivity | lra].
Qed.

Lemma round_near (x : R) (z : Z) :
  IZR z - 1 / 2 < x < IZR z + 1 / 2 -> round x = z.
Proof.
  intros [Hl Hu]. unfold round.
  destruct (Rle_dec (IZR z) x) as [Hle | Hgt].
  - assert (Hz : z = Int_part x) by (apply Int_part_spec; split; lra).
    unfold frac_part. rewrite <- Hz.
    destruct (Rlt_dec (x - IZR z) (1 / 2)); [reflexivity | lra].
  - assert (Hz : (z - 1)%Z = Int_part x).
    { apply Int_part_spec. rewrite minus_IZR. split; lra. }
    unfold frac_part. rewrite <- Hz, minus_IZR.
    destruct (Rlt_dec (x - (IZR z - 1)) (1 / 2)); [lra|].
    destruct (Rlt_dec (1 / 2) (x - (IZR z - 1))); [f_equal; lia | lra].
Qed.

Lemma round_bounds (x : R) :
  (Int_part x <= round x <= Int_part x + 1)%Z.
Proof.
  unfold round.
  destruct (Rlt_dec _ _); [lia|].
  destruct (Rlt_dec _ _); [lia|].
  destruct (Z.even _); lia.
Qed.

Lemma Int_part_mono (x y : R) : x <= y -> (Int_part x <= Int_part y)%Z.
Proof.
  intros H. destruct (base_Int_part x), (base_Int_part y).
  apply Z.lt_succ_r. apply lt_IZR. rewrite succ_IZR. lra.
Qed.

(** Ties go to the even neighbour. *)
Lemma round_ties_to_even :
  round (5 / 2) = 2%Z /\ round (7 / 2) = 4%Z /\ round (- (1 / 2)) = 0%Z.
Proof.
  assert (H : forall (x : R) (z : Z),
             x = IZR z + 1 / 2 ->
             round x = if Z.even z then z else (z + 1)%Z).
  { intros x z Hx.
    assert (Hz : z = Int_part x) by (apply Int_part_spec; split; lra).
    unfold round, frac_part. rewrite <- Hz.
    destruct (Rlt_dec (x - IZR z) (1 / 2)); [lra|].
    destruct (Rlt_dec (1 / 2) (x - IZR z)); [lra | reflexivity]. }
  split; [|split].
  - apply (H (5 / 2) 2%Z). lra.
  - apply (H (7 / 2) 3%Z). lra.
  - apply (H (- (1 / 2)) (-1)%Z). lra.
Qed.

Lemma round_mono (x y : R) : x <= y -> (round x <= round y)%Z.
Proof.
  intros H.
  pose proof (Int_part_mono x y H) as Hfl.
  pose proof (round_bounds x) as Bx. pose proof (round_bounds y) as By.
  destruct (Z.eq_dec (Int_part x) (Int_part y)) as [E | NE]; [|lia].
  assert (Hd : frac_part x <= frac_part y).
  { unfold frac_part. rewrite E. lra. }
  unfold round in *. rewrite E in *.
  destruct (Rlt_dec (frac_part x) (1 / 2)).
  - destruct (Rlt_dec (frac_part y) (1 / 2)); [lia|].
    destruct (Rlt_dec (1 / 2) (frac_part y)); [lia|].
    destruct (Z.even (Int_part y)); lia.
  - destruct (Rlt_dec (1 / 2) (frac_part x)).
    + destruct (Rlt_dec (frac_part y) (1 / 2)); [lra|].
      destruct (Rlt_dec (1 / 2) (frac_part y)); [lia | lra].
    + destruct (Rlt_dec (frac_part y) (1 / 2)); [lra|].
      destruct (Rlt_dec (1 / 2) (frac_part y)).
      * destruct (Z.even (Int_part y)); lia.
      * lia.
Qed.

End PyFacts.

(* ================================================================== *)
(** ** Lemmas on the math library of kalkulacka.py                      *)
(* ================================================================== *)

Module KalkulackaFacts.
Import Py PyFacts Kalkulacka.
Local Open Scope R_scope.

(** *** The effective monthly rate *)

Lemma Rpower_one (y : R) : Rpower 1 y = 1.
Proof.
  unfold Rpower. rewrite ln_1, Rmult_0_r. apply exp_0.
Qed.

Lemma Rpower_eq_one (x y : R) : 0 < x -> y <> 0 -> Rpower x y = 1 -> x = 1.
Proof.
  intros Hx Hy H. unfold Rpower in H. rewrite <- exp_0 in H.
  apply exp_inv in H.
  apply Rmult_integral in H. destruct H as [H | H]; [contradiction|].
  rewrite <- ln_1 in H. apply ln_inv in H; lra.
Qed.

Lemma Rpower_pos (x y : R) : 0 < Rpower x y.
Proof. unfold Rpower. apply exp_pos. Qed.

Lemma eff_monthly_rate_pos (r : R) :
  -1 < r -> eff_monthly_rate r = Ok (Spec.effective_monthly_rate r).
Proof.
  intros H. unfold eff_monthly_rate, float_pow, Spec.effective_monthly_rate.
  destruct (Req_dec_T (1 / 12) 0); [lra|].
  destruct (Req_dec_T (1 + r) 0); [lra|].
  destruct (Rlt_dec (1 + r) 0); [lra|]. reflexivity.
Qed.

Lemma eff_monthly_rate_bankrupt : eff_monthly_rate (-1) = Ok (-1).
Proof.
  unfold eff_monthly_rate, float_pow.
  destruct (Req_dec_T (1 / 12) 0); [lra|].
  destruct (Req_dec_T (1 + -1) 0); [|lra].
  destruct (Rlt_dec (1 / 12) 0); [lra|]. simpl. f_equal. lra.
Qed.

Lemma eff_monthly_rate_complex (r : R) :
  r < -1 -> eff_monthly_rate r = OutOfReals.
Proof.
  intros H. unfold eff_monthly_rate, float_pow.
  destruct (Req_dec_T (1 / 12) 0); [lra|].
  destruct (Req_dec_T (1 + r) 0); [lra|].
  destruct (Rlt_dec (1 + r) 0); [|lra].
  rewrite is_integral_twelfth. reflexivity.
Qed.


Lemma eff_monthly_rate_zero : eff_monthly_rate 0 = Ok 0.
Proof.
  rewrite eff_monthly_rate_pos by lra. unfold Spec.effective_monthly_rate.
  replace (1 + 0) with 1 by lra. rewrite Rpower_one. f_equal. lra.
Qed.

(** *** Integer powers of the growth factor *)

Lemma powerRZ_of_nat (q : R) (k : nat) : powerRZ q (Z.of_nat k) = q ^ k.
Proof. symmetry. apply pow_powerRZ. Qed.

Lemma powerRZ_gt_1 (q : R) (n : Z) : 1 < q -> (1 <= n)%Z -> 1 < powerRZ q n.
Proof.
  intros Hq Hn. rewrite <- (Z2Nat.id n) by lia. rewrite powerRZ_of_nat.
  apply Rlt_pow_R1; [assumption | lia].
Qed.

Lemma powerRZ_lt_1 (q : R) (n : Z) :
  0 <= q < 1 -> (1 <= n)%Z -> 0 <= powerRZ q n < 1.
Proof.
  intros Hq Hn. rewrite <- (Z2Nat.id n) by lia. rewrite powerRZ_of_nat.
  apply pow_lt_1_compat; [assumption | lia].
Qed.

Lemma powerRZ_zero_pos (n : Z) : (1 <= n)%Z -> powerRZ 0 n = 0.
Proof.
  intros Hn. destruct n as [|p|p]; try lia. simpl. apply pow_i. lia.
Qed.

(** With a growth factor other than 1 and a number of months other than 0,
    the divisor [(1+i)^n - 1] is not zero. *)
Lemma powerRZ_ne_1 (q : R) (n : Z) :
  0 < q -> q <> 1 -> n <> 0%Z -> powerRZ q n <> 1.
Proof.
  intros Hq Hq1 Hn E. rewrite powerRZ_Rpower in E by assumption.
  apply Rpower_eq_one in E; [contradiction | assumption |].
  intros H0. apply eq_IZR in H0. contradiction.
Qed.


End KalkulackaFacts.

(* ================================================================== *)
(** ** Lemmas on the value functions and the two calculators            *)
(* ================================================================== *)

Module PlanFacts.
Import Py PyFacts Kalkulacka KalkulackaFacts.
Local Open Scope R_scope.


Lemma IZR_neq_0 (n : Z) : n <> 0%Z -> IZR n <> 0.
Proof. intros Hn H0. apply eq_IZR in H0. contradiction. Qed.

Lemma fv_lump_sum_ok (pv i : R) (n : Z) :
  1 + i <> 0 \/ (0 <= n)%Z ->
  fv_lump_sum pv i n = Ok (pv * powerRZ (1 + i) n).
Proof.
  intros H. unfold fv_lump_sum. rewrite float_pow_int by assumption.
  reflexivity.
Qed.

Lemma pv_from_fv_ok (fv i : R) (n : Z) :
  1 + i <> 0 ->
  pv_from_fv fv i n = Ok (fv / powerRZ (1 + i) n).
Proof.
  intros H. unfold pv_from_fv. rewrite float_pow_int by (left; assumption).
  cbn [bind]. apply float_div_ok. apply powerRZ_NOR. assumption.
Qed.

Lemma annuity_from_fv_ok (fv i : R) (n : Z) :
  0 < 1 + i -> n <> 0%Z ->
  annuity_from_fv fv i n = Ok (Spec.monthly_payment fv i n).
Proof.
  intros Hq Hn. unfold annuity_from_fv, Spec.monthly_payment.
  destruct (Req_dec_T i 0) as [Hi | Hi].
  - apply float_div_ok. apply IZR_neq_0. assumption.
  - rewrite float_pow_int by (left; lra). cbn [bind].
    apply float_div_ok.
    assert (powerRZ (1 + i) n <> 1)
      by (apply powerRZ_ne_1; [lra | lra | assumption]).
    lra.
Qed.

(** With no month to save in, the monthly payment is a division by zero at
    every rate. *)
Lemma annuity_from_fv_no_months (fv i : R) :
  annuity_from_fv fv i 0 = Raise ZeroDivisionError.
Proof.
  unfold annuity_from_fv. destruct (Req_dec_T i 0).
  - apply float_div_zero.
  - unfold float_pow. destruct (Req_dec_T 0 0); [|contradiction].
    cbn [bind]. replace (1 - 1) with 0 by lra. apply float_div_zero.
Qed.


(** The clamp of the combined branch is [max(0, .)]. *)
Lemma clamp_is_max (x : R) : (if Rlt_dec x 0 then 0 else x) = Rmax 0 x.
Proof.
  destruct (Rlt_dec x 0).
  - rewrite Rmax_left; lra.
  - rewrite Rmax_right; lra.
Qed.

(** The branch-specific fields of a record are its entries under the branch
    keys, and nothing else. *)
Lemma branch_fields_lookup (d : dict) (k : string) :
  Spec.branch_fields d !! k
  = if decide (k ∈ Spec.branch_keys) then d !! k else None.
Proof.
  unfold Spec.branch_fields. destruct (decide (k ∈ Spec.branch_keys)) as [Hk | Hk].
  - destruct (d !! k) as [v|] eqn:E.
    + apply map_lookup_filter_Some. split; assumption.
    + apply map_lookup_filter_None. left. assumption.
  - apply map_lookup_filter_None. right. intros v _. exact Hk.
Qed.

Lemma remaining_target_nonneg (t f : R) : 0 <= Spec.remaining_target t f.
Proof. unfold Spec.remaining_target. apply Rmax_l. Qed.



End PlanFacts.

(* ================================================================== *)
(** ** The calculators return                                           *)
(* ================================================================== *)

Module Returns.
Import Py PyFacts Kalkulacka KalkulackaFacts PlanFacts.
Local Open Scope R_scope.

Lemma effective_rate_growth_pos (r : R) :
  0 < 1 + Spec.effective_monthly_rate r.
Proof.
  unfold Spec.effective_monthly_rate.
  pose proof (Rpower_pos (1 + r) (1 / 12)). lra.
Qed.

(** The accumulation step returns for every investment style when the growth
    factor is positive and there is at least one month, or more generally a
    number of months other than zero. *)
Lemma compute_lump_sum_returns (inp : LumpSumInput.t) :
  -1 < LumpSumInput.annual_rate_accum inp ->
  round (LumpSumInput.years inp * 12) <> 0%Z ->
  exists res, compute_lump_sum inp = Ok res.
Proof.
  intros Hr Hn. unfold compute_lump_sum.
  rewrite eff_monthly_rate_pos by assumption. cbn [bind].
  pose proof (effective_rate_growth_pos (LumpSumInput.annual_rate_accum inp))
    as Hq.
  destruct (LumpSumInput.investment_type inp).
  - rewrite pv_from_fv_ok by lra. cbn [bind]. eexists. reflexivity.
  - rewrite annuity_from_fv_ok by assumption. cbn [bind].
    eexists. reflexivity.
  - rewrite fv_lump_sum_ok by (left; lra). cbn [bind].
    rewrite annuity_from_fv_ok by assumption. cbn [bind].
    eexists. reflexivity.
Qed.

Lemma pv_renta_required_returns (monthly_rent annual_rate_rent years_rent : R) :
  -1 < annual_rate_rent ->
  exists w, pv_renta_required monthly_rent annual_rate_rent years_rent = Ok w.
Proof.
  intros Hr. unfold pv_renta_required.
  rewrite eff_monthly_rate_pos by assumption. cbn [bind].
  pose proof (effective_rate_growth_pos annual_rate_rent) as Hq.
  destruct (Req_dec_T _ 0) as [Hi | Hi].
  - eexists. reflexivity.
  - rewrite float_pow_int by (left; lra). cbn [bind].
    rewrite float_div_ok by assumption. eexists. reflexivity.
Qed.

Lemma compute_renta_returns (inp : RentaInput.t) :
  -1 < RentaInput.annual_rate_rent inp ->
  -1 < RentaInput.annual_rate_accum inp ->
  round (RentaInput.years_saving inp * 12) <> 0%Z ->
  exists res, compute_renta inp = Ok res.
Proof.
  intros Hr2 Hr1 Hm. unfold compute_renta.
  destruct (pv_renta_required_returns (RentaInput.monthly_rent inp)
              (RentaInput.annual_rate_rent inp) (RentaInput.years_rent inp) Hr2)
    as [w ->].
  cbn [bind]. rewrite eff_monthly_rate_pos by assumption. cbn [bind].
  pose proof (effective_rate_growth_pos (RentaInput.annual_rate_accum inp))
    as Hq.
  destruct (RentaInput.investment_type inp).
  - rewrite pv_from_fv_ok by lra. cbn [bind]. eexists. reflexivity.
  - rewrite annuity_from_fv_ok by assumption. cbn [bind].
    eexists. reflexivity.
  - rewrite fv_lump_sum_ok by (left; lra). cbn [bind].
    rewrite annuity_from_fv_ok by assumption. cbn [bind].
    eexists. reflexivity.
Qed.

End Returns.

(* ================================================================== *)
(** ** The wealth a renta requires                                      *)
(* ================================================================== *)

Module RentaFacts.
Import Py PyFacts Kalkulacka KalkulackaFacts PlanFacts Returns.
Local Open Scope R_scope.

Lemma annuity_factor_closed (q : R) (k : nat) :
  0 < q -> q <> 1 ->
  (1 - powerRZ q (- Z.of_nat k)) / (q - 1) = Spec.annuity_factor q k.
Proof.
  intros Hq Hq1. induction k as [|k IH].
  - simpl. field. lra.
  - cbn [Spec.annuity_factor]. rewrite <- IH.
    rewrite !powerRZ_neg', !powerRZ_of_nat, <- !pow_inv.
    simpl. field. split; lra.
Qed.

Lemma annuity_factor_one (k : nat) : Spec.annuity_factor 1 k = INR k.
Proof.
  induction k as [|k IH].
  - reflexivity.
  - cbn [Spec.annuity_factor]. rewrite IH, S_INR, Rinv_1, pow1. reflexivity.
Qed.

Lemma annuity_factor_step_pos (q : R) (k : nat) : 0 < q -> 0 < (/ q) ^ k.
Proof.
  intros Hq. apply pow_lt. apply Rinv_0_lt_compat. assumption.
Qed.

Lemma annuity_factor_nonneg (q : R) (k : nat) :
  0 < q -> 0 <= Spec.annuity_factor q k.
Proof.
  intros Hq. induction k as [|k IH].
  - simpl. lra.
  - cbn [Spec.annuity_factor].
    pose proof (annuity_factor_step_pos q (S k) Hq). lra.
Qed.

(** One more month of drawdown needs more wealth. *)
Lemma annuity_factor_months (q : R) (k k' : nat) :
  0 < q -> (k <= k')%nat -> Spec.annuity_factor q k <= Spec.annuity_factor q k'.
Proof.
  intros Hq Hk. induction Hk as [|k' Hk IH].
  - lra.
  - cbn [Spec.annuity_factor].
    pose proof (annuity_factor_step_pos q (S k') Hq). lra.
Qed.

(** Over a number of months that is not negative and at an annual rate above
    −1, the required wealth is the monthly rent times the annuity factor. *)
Lemma pv_renta_required_factor (monthly_rent annual_rate_rent years_rent : R) :
  -1 < annual_rate_rent ->
  (0 <= round (years_rent * 12))%Z ->
  pv_renta_required monthly_rent annual_rate_rent years_rent
  = Ok (monthly_rent
        * Spec.annuity_factor (1 + Spec.effective_monthly_rate annual_rate_rent)
            (Z.to_nat (round (years_rent * 12)))).
Proof.
  intros Hr Hn. unfold pv_renta_required.
  rewrite eff_monthly_rate_pos by assumption. cbn [bind].
  pose proof (effective_rate_growth_pos annual_rate_rent) as Hq.
  set (i2 := Spec.effective_monthly_rate annual_rate_rent) in *.
  set (n := round (years_rent * 12)) in *.
  destruct (Req_dec_T i2 0) as [Hi | Hi].
  - rewrite Hi. replace (1 + 0) with 1 by lra.
    rewrite annuity_factor_one, INR_IZR_INZ, Z2Nat.id by assumption.
    reflexivity.
  - rewrite float_pow_int by (left; lra). cbn [bind].
    rewrite float_div_ok by assumption. f_equal.
    rewrite <- annuity_factor_closed by lra.
    rewrite Z2Nat.id by assumption. field. lra.
Qed.

End RentaFacts.

(* ================================================================== *)
(** ** The endpoint                                                     *)
(* ================================================================== *)

Module AppFacts.
Import Py Kalkulacka App.
Local Open Scope R_scope.

Lemma validate_literal_inv (allowed : list string) (f : field string) (s : string) :
  validate_literal allowed f = Some s -> f = Given s /\ s ∈ allowed.
Proof.
  destruct f as [| |s']; cbn; try discriminate.
  destruct (decide (s' ∈ allowed)); [|discriminate].
  intros [= <-]. split; [reflexivity | assumption].
Qed.

(** What validation lets through: one of the two goal types, one of the three
    investment styles, and [None] for every numeric field left out. *)
Lemma validate_inv (b : Body.t) (req : CalcRequest.t) :
  validate b = Some req ->
  Body.goal_type b = Given (CalcRequest.goal_type req) /\
  CalcRequest.goal_type req ∈ ["lump_sum"; "renta"] /\
  CalcRequest.investment_type req ∈ ["one_time"; "monthly"; "combined"] /\
  CalcRequest.target_amount req = validate_optional None (Body.target_amount b) /\
  CalcRequest.years req = validate_optional None (Body.years b) /\
  CalcRequest.annual_rate_accum req
  = validate_optional None (Body.annual_rate_accum b) /\
  CalcRequest.monthly_rent req = validate_optional None (Body.monthly_rent b) /\
  CalcRequest.years_rent req = validate_optional None (Body.years_rent b) /\
  CalcRequest.annual_rate_rent req
  = validate_optional None (Body.annual_rate_rent b) /\
  CalcRequest.years_saving req = validate_optional None (Body.years_saving b).
Proof.
  unfold validate.
  destruct (validate_literal _ (Body.goal_type b)) as [g|] eqn:Eg;
    [|discriminate].
  destruct (validate_literal _ (Body.investment_type b)) as [it|] eqn:Eit;
    [|discriminate].
  intros [= <-]. cbn.
  apply validate_literal_inv in Eg as [Eg Hg].
  apply validate_literal_inv in Eit as [_ Hit].
  repeat split; assumption.
Qed.

Lemma InvestmentType_of_value_valid (s : string) :
  s ∈ ["one_time"; "monthly"; "combined"] ->
  exists t, InvestmentType_of_value s = Ok t.
Proof.
  intros H. repeat (apply elem_of_cons in H as [-> | H]).
  - exists ONE_TIME. reflexivity.
  - exists MONTHLY. reflexivity.
  - exists COMBINED. reflexivity.
  - apply elem_of_nil in H. contradiction.
Qed.

Lemma elem_of_missing_of (req : CalcRequest.t) (names : list string) (k : string) :
  k ∈ missing_of req names <-> k ∈ names /\ getattr req k = None.
Proof.
  unfold missing_of. rewrite list_elem_of_filter. tauto.
Qed.







(** The last line of [calc]: a request object of another goal type, were
    one to reach it, would get the 400 for an unknown goal type. *)
Lemma calc_unknown_goal_type (req : CalcRequest.t) :
  CalcRequest.investment_type req ∈ ["one_time"; "monthly"; "combined"] ->
  CalcRequest.goal_type req <> "lump_sum" ->
  CalcRequest.goal_type req <> "renta" ->
  calc req = HTTPError 400 (Text "Unknown goal_type").
Proof.
  intros Hit H1 H2. unfold calc.
  destruct (InvestmentType_of_value_valid _ Hit) as [t ->]. cbn [bind].
  destruct (decide (CalcRequest.goal_type req = "lump_sum")); [contradiction|].
  destruct (decide (CalcRequest.goal_type req = "renta")); [contradiction|].
  reflexivity.
Qed.

(** The answers of [calc] to a validated request never include its last
    line, the 400 for an unknown goal type. *)
Lemma calc_knows_goal_type (req : CalcRequest.t) :
  CalcRequest.goal_type req ∈ ["lump_sum"; "renta"] ->
  calc req <> HTTPError 400 (Text "Unknown goal_type").
Proof.
  intros Hg. unfold calc.
  destruct (InvestmentType_of_value _) as [t | e |]; cbn [bind guard];
    [|discriminate..].
  destruct (decide (CalcRequest.goal_type req = "lump_sum")) as [E | NE].
  - destruct (decide (_ <> [])); [discriminate|].
    destruct (compute_lump_sum _); discriminate.
  - destruct (decide (CalcRequest.goal_type req = "renta")) as [E' | NE'].
    + destruct (decide (_ <> [])); [discriminate|].
      destruct (compute_renta _); discriminate.
    + repeat (apply elem_of_cons in Hg as [? | Hg]); try contradiction.
      apply elem_of_nil in Hg. contradiction.
Qed.

End AppFacts.

(* ================================================================== *)
(** ** Theorems on the calculators                                      *)
(* ================================================================== *)

Import Py PyFacts Kalkulacka KalkulackaFacts PlanFacts Returns RentaFacts.
Import App AppFacts Scenarios MoreScenarios.
Local Open Scope R_scope.

Lemma round_20_years : round (20 * 12) = 240%Z.
Proof. apply round_near. lra. Qed.

Lemma round_1_year : round (1 * 12) = 12%Z.
Proof. apply round_near. lra. Qed.

Lemma round_two_weeks : round (1 / 25 * 12) = 0%Z.
Proof. apply round_near. lra. Qed.


(** A horizon of at least one month has at least one month. *)
Lemma ordinary_years_months (y : R) :
  Spec.ordinary_years y -> (1 <= round (y * 12))%Z.
Proof.
  intros [Hlo _]. rewrite <- (round_IZR 1). apply round_mono. lra.
Qed.

Lemma ordinary_rate_above_minus_1 (r : R) : Spec.ordinary_rate r -> -1 < r.
Proof. intros [Hlo _]. lra. Qed.

(** C1, as the claim states it, fails: a MONTHLY input whose horizon rounds
    to zero months gets no result at all, the monthly payment being a
    division by zero. *)
Lemma monthly_investment_needs_a_month :
  LumpSumInput.investment_type test1_two_weeks = MONTHLY /\
  compute_lump_sum test1_two_weeks = Raise ZeroDivisionError.
Proof.
  split; [reflexivity|].
  unfold compute_lump_sum, test1_two_weeks.
  cbn [LumpSumInput.annual_rate_accum LumpSumInput.years
       LumpSumInput.investment_type LumpSumInput.target_amount].
  rewrite eff_monthly_rate_pos by lra. cbn [bind].
  rewrite round_two_weeks, annuity_from_fv_no_months. reflexivity.
Qed.

(** C1 (amended). For every lump-sum input of the MONTHLY style,
    [compute_lump_sum] evaluates i = (1+annual_rate_accum)^(1/12) − 1,
    n = round(years·12) and the monthly payment target/n (i = 0) or
    target·i/((1+i)^n − 1) (i ≠ 0): it returns a result whose
    monthly_investment is that payment when the evaluation yields one, and
    it raises what the evaluation raises when it does not.  Over an ordinary
    rate and horizon the evaluation does yield a payment, so a result is
    returned. *)
Theorem monthly_investment_formula (inp : LumpSumInput.t) :
  LumpSumInput.investment_type inp = MONTHLY ->
  rmap (Ledger.number_at "monthly_investment") (compute_lump_sum inp)
  = rmap Some (Spec.monthly_investment inp) /\
  (Spec.ordinary_rate (LumpSumInput.annual_rate_accum inp) ->
   Spec.ordinary_years (LumpSumInput.years inp) ->
   exists (res : dict) (x : R),
     compute_lump_sum inp = Ok res /\
     Spec.monthly_investment inp = Ok x /\
     res !! "monthly_investment" = Some (VFloat x)).
Proof.
  intros Ht.
  assert (Heq : rmap (Ledger.number_at "monthly_investment")
                     (compute_lump_sum inp)
                = rmap Some (Spec.monthly_investment inp)).
  { unfold compute_lump_sum, Spec.monthly_investment,
      Spec.eval_effective_monthly_rate, Spec.eval_monthly_payment,
      eff_monthly_rate, annuity_from_fv.
    rewrite Ht.
    destruct (float_pow (1 + _) (1 / 12)) as [p | e |]; cbn [bind rmap];
      try reflexivity.
    destruct (Req_dec_T (p - 1) 0) as [Hi | Hi].
    - destruct (float_div _ _) as [x | e |]; reflexivity.
    - destruct (float_pow _ _) as [q | e |]; cbn [bind]; try reflexivity.
      destruct (float_div _ _) as [x | e |]; reflexivity. }
  split; [exact Heq|].
  intros Hr Hy.
  destruct (compute_lump_sum_returns inp) as [res Hres].
  { apply ordinary_rate_above_minus_1. exact Hr. }
  { pose proof (ordinary_years_months _ Hy). lia. }
  rewrite Hres in Heq. cbn [rmap bind] in Heq.
  destruct (Spec.monthly_investment inp) as [x | e |];
    cbn [rmap bind] in Heq; try discriminate Heq.
  injection Heq as Heq. exists res, x.
  split; [exact Hres|]. split; [reflexivity|].
  unfold Ledger.number_at in Heq.
  destruct (res !! "monthly_investment") as [[y | t] |];
    try discriminate Heq.
  injection Heq as ->. reflexivity.
Qed.

Lemma monthly_investment_formula_witness :
  rmap (Ledger.number_at "monthly_investment") (compute_lump_sum test1)
  = rmap Some (Spec.monthly_investment test1) /\
  exists (res : dict) (x : R),
    compute_lump_sum test1 = Ok res /\
    Spec.monthly_investment test1 = Ok x /\
    res !! "monthly_investment" = Some (VFloat x).
Proof.
  destruct (monthly_investment_formula test1 eq_refl) as [Heq Hres].
  split; [exact Heq|]. apply Hres.
  - change (Spec.ordinary_rate (7 / 100)). unfold Spec.ordinary_rate. lra.
  - change (Spec.ordinary_years 20). unfold Spec.ordinary_years. lra.
Defined.

(** C5, as the claim states it, fails in binary64: for pv = 1000, i = 0.1
    and n = 1 the present value of the future value is 999.9999999999999,
    the product 1000·1.1 and the quotient by 1.1 being rounded. *)
Lemma pv_from_fv_of_fv_lump_sum_rounds :
  Binary64.lt Binary64.minus_one Binary64.tenth /\
  (0 <= 1)%Z /\
  Binary64.round_trip Binary64.thousand Binary64.tenth 1
  = Binary64.Value Binary64.just_below_1000 /\
  Binary64.lt Binary64.just_below_1000 Binary64.thousand.
Proof.
  split; [reflexivity|]. split; [lia|]. split; reflexivity.
Qed.

(** C5 (amended). The present value of the future value of pv is pv
    multiplied by the growth factor (1+i)^n and the product divided by the
    same factor, the two calls failing alike; it is pv itself when the
    factor is 1, that is over no month at all or at the rate i = 0. *)
Theorem pv_from_fv_of_fv_lump_sum (pv i : R) (n : Z) :
  (let* fv := fv_lump_sum pv i n in pv_from_fv fv i n)
  = (let* p := float_pow (1 + i) (IZR n) in float_div (pv * p) p) /\
  (n = 0%Z \/ (i = 0 /\ Spec.ordinary_months n) ->
   (let* fv := fv_lump_sum pv i n in pv_from_fv fv i n) = Ok pv).
Proof.
  split.
  - unfold fv_lump_sum, pv_from_fv.
    destruct (float_pow _ _) as [p | e |] eqn:Ep; cbn [bind];
      rewrite ?Ep; reflexivity.
  - intros [-> | [-> [Hn _]]].
    + rewrite fv_lump_sum_ok by (right; lia). cbn [bind].
      unfold pv_from_fv. rewrite float_pow_int by (right; lia). cbn [bind].
      cbn [powerRZ]. rewrite float_div_ok by lra. f_equal. field.
    + rewrite fv_lump_sum_ok by (left; lra). cbn [bind].
      rewrite pv_from_fv_ok by lra. f_equal.
      replace (1 + 0) with 1 by lra. rewrite powerRZ_R1. field.
Qed.

Lemma pv_from_fv_of_fv_lump_sum_witness :
  (let* fv := fv_lump_sum 1000 0 12 in pv_from_fv fv 0 12) = Ok 1000.
Proof.
  apply (proj2 (pv_from_fv_of_fv_lump_sum 1000 0 12)).
  right. split; [reflexivity | unfold Spec.ordinary_months; lia].
Defined.

(** C9. Two lump-sum inputs (two renta inputs) that differ in
    one_time_investment only, of style ONE_TIME or MONTHLY, get the same
    outcome. *)
Theorem one_time_investment_only_combined :
  (forall a b : LumpSumInput.t,
     LumpSumInput.target_amount a = LumpSumInput.target_amount b ->
     LumpSumInput.years a = LumpSumInput.years b ->
     LumpSumInput.annual_rate_accum a = LumpSumInput.annual_rate_accum b ->
     LumpSumInput.investment_type a = LumpSumInput.investment_type b ->
     LumpSumInput.investment_type a = ONE_TIME \/
     LumpSumInput.investment_type a = MONTHLY ->
     compute_lump_sum a = compute_lump_sum b) /\
  (forall a b : RentaInput.t,
     RentaInput.monthly_rent a = RentaInput.monthly_rent b ->
     RentaInput.years_rent a = RentaInput.years_rent b ->
     RentaInput.annual_rate_rent a = RentaInput.annual_rate_rent b ->
     RentaInput.years_saving a = RentaInput.years_saving b ->
     RentaInput.annual_rate_accum a = RentaInput.annual_rate_accum b ->
     RentaInput.investment_type a = RentaInput.investment_type b ->
     RentaInput.investment_type a = ONE_TIME \/
     RentaInput.investment_type a = MONTHLY ->
     compute_renta a = compute_renta b).
Proof.
  split.
  - intros [ta ya ra ka oa] [tb yb rb kb ob]. cbn.
    intros -> -> -> -> [-> | ->]; reflexivity.
  - intros [a1 a2 a3 a4 a5 ka oa] [b1 b2 b3 b4 b5 kb ob]. cbn.
    intros -> -> -> -> -> -> [-> | ->]; reflexivity.
Qed.

Lemma one_time_investment_only_combined_witness :
  compute_lump_sum test1
  = compute_lump_sum
      {| LumpSumInput.target_amount := 1000000;
         LumpSumInput.years := 20;
         LumpSumInput.annual_rate_accum := 7 / 100;
         LumpSumInput.investment_type := MONTHLY;
         LumpSumInput.one_time_investment := 50000 |}.
Proof.
  apply (proj1 one_time_investment_only_combined);
    try reflexivity. right. reflexivity.
Defined.




(** C4, as the claim states it, fails: a positive horizon that rounds to zero
    months, and an annual rate of −1, each end in a division by zero. *)
Lemma division_by_zero_reachable :
  (0 < LumpSumInput.years two_weeks /\
   compute_lump_sum two_weeks = Raise ZeroDivisionError) /\
  (0 < LumpSumInput.years total_loss /\
   compute_lump_sum total_loss = Raise ZeroDivisionError).
Proof.
  split; split.
  - change (0 < 1 / 25). lra.
  - unfold compute_lump_sum, two_weeks.
    cbn [LumpSumInput.annual_rate_accum LumpSumInput.years
         LumpSumInput.investment_type LumpSumInput.target_amount].
    rewrite eff_monthly_rate_zero. cbn [bind].
    rewrite round_two_weeks, annuity_from_fv_no_months. reflexivity.
  - change (0 < 1). lra.
  - unfold compute_lump_sum, total_loss.
    cbn [LumpSumInput.annual_rate_accum LumpSumInput.years
         LumpSumInput.investment_type LumpSumInput.target_amount].
    rewrite eff_monthly_rate_bankrupt. cbn [bind].
    rewrite round_1_year. unfold pv_from_fv.
    rewrite float_pow_int by (right; lia). cbn [bind].
    replace (1 + -1) with 0 by lra.
    rewrite powerRZ_zero_pos by lia. rewrite float_div_zero. reflexivity.
Qed.

(** C4 (amended). Over ordinary inputs the calculators return a result, for
    every investment style and at the rate 0 as well: [compute_lump_sum] for
    an annual rate between −50 % and +100 % and a horizon of one month to a
    hundred years, [compute_renta] for two such annual rates, such a saving
    horizon and a drawdown of at most a hundred years.  No division by zero
    is raised there. *)
Theorem no_division_by_zero :
  (forall inp : LumpSumInput.t,
     Spec.ordinary_rate (LumpSumInput.annual_rate_accum inp) ->
     Spec.ordinary_years (LumpSumInput.years inp) ->
     exists res, compute_lump_sum inp = Ok res) /\
  (forall inp : RentaInput.t,
     Spec.ordinary_rate (RentaInput.annual_rate_rent inp) ->
     0 <= RentaInput.years_rent inp <= 100 ->
     Spec.ordinary_rate (RentaInput.annual_rate_accum inp) ->
     Spec.ordinary_years (RentaInput.years_saving inp) ->
     exists res, compute_renta inp = Ok res).
Proof.
  split.
  - intros inp Hr Hy. apply compute_lump_sum_returns.
    + apply ordinary_rate_above_minus_1. exact Hr.
    + pose proof (ordinary_years_months _ Hy). lia.
  - intros inp Hr2 _ Hr1 Hy. apply compute_renta_returns.
    + apply ordinary_rate_above_minus_1. exact Hr2.
    + apply ordinary_rate_above_minus_1. exact Hr1.
    + pose proof (ordinary_years_months _ Hy). lia.
Qed.

Lemma no_division_by_zero_witness :
  (exists res, compute_lump_sum test1_no_interest = Ok res) /\
  (exists res, compute_renta test3 = Ok res).
Proof.
  split.
  - apply (proj1 no_division_by_zero test1_no_interest).
    + change (Spec.ordinary_rate 0). unfold Spec.ordinary_rate. lra.
    + change (Spec.ordinary_years 20). unfold Spec.ordinary_years. lra.
  - apply (proj2 no_division_by_zero test3).
    + change (Spec.ordinary_rate (5 / 100)). unfold Spec.ordinary_rate. lra.
    + change (0 <= 30 <= 100). lra.
    + change (Spec.ordinary_rate (7 / 100)). unfold Spec.ordinary_rate. lra.
    + change (Spec.ordinary_years 18). unfold Spec.ordinary_years. lra.
Defined.

(** C3. For every renta input, the branch-specific fields [compute_renta]
    produces are those [compute_lump_sum] produces on the lump-sum input
    whose target is pv_renta_required(monthly_rent, annual_rate_rent,
    years_rent), whose horizon is years_saving, and whose rate, style and
    one-time deposit are the same; the two also fail alike. *)
Theorem renta_accumulates_as_lump_sum (inp : RentaInput.t) :
  rmap Spec.branch_fields (compute_renta inp)
  = (let* target :=
       pv_renta_required (RentaInput.monthly_rent inp)
                         (RentaInput.annual_rate_rent inp)
                         (RentaInput.years_rent inp) in
     rmap Spec.branch_fields
          (compute_lump_sum (Spec.lump_sum_of_renta inp target))).
Proof.
  unfold compute_renta, compute_lump_sum, Spec.lump_sum_of_renta.
  cbn [LumpSumInput.target_amount LumpSumInput.years
       LumpSumInput.annual_rate_accum LumpSumInput.investment_type
       LumpSumInput.one_time_investment].
  destruct (pv_renta_required _ _ _) as [w | e |]; cbn [bind rmap];
    try reflexivity.
  destruct (eff_monthly_rate _) as [i | e |]; cbn [bind rmap];
    try reflexivity.
  destruct (RentaInput.investment_type inp).
  - destruct (pv_from_fv w i _) as [v | e |]; reflexivity.
  - destruct (annuity_from_fv w i _) as [v | e |]; reflexivity.
  - destruct (fv_lump_sum _ i _) as [fv | e |]; cbn [bind]; try reflexivity.
    destruct (annuity_from_fv _ i _) as [v | e |]; reflexivity.
Qed.

(** C6, as the claim states it, fails: with a negative monthly rent the
    required wealth falls as the years of drawdown grow; over a negative
    number of years it falls as the monthly rent grows; and at an annual rate
    of −1 there is no value to compare. *)
Lemma pv_renta_required_not_monotone :
  (exists v1 v2,
     pv_renta_required (-1) 0 1 = Ok v1 /\
     pv_renta_required (-1) 0 2 = Ok v2 /\ 1 <= 2 /\ v2 < v1) /\
  (exists v1 v2,
     pv_renta_required 1 0 (-1) = Ok v1 /\
     pv_renta_required 2 0 (-1) = Ok v2 /\ 1 <= 2 /\ v2 < v1) /\
  pv_renta_required 1 (-1) 1 = Raise ZeroDivisionError.
Proof.
  assert (Hz : forall R y, pv_renta_required R 0 y = Ok (R * IZR (round (y * 12)))).
  { intros R y. unfold pv_renta_required. rewrite eff_monthly_rate_zero.
    cbn [bind]. destruct (Req_dec_T 0 0); [reflexivity | contradiction]. }
  split; [|split].
  - exists (-12), (-24). rewrite !Hz.
    replace (round (1 * 12)) with 12%Z by (symmetry; apply round_near; lra).
    replace (round (2 * 12)) with 24%Z by (symmetry; apply round_near; lra).
    repeat split; try (f_equal; lra); lra.
  - exists (-12), (-24). rewrite !Hz.
    replace (round (-1 * 12)) with (-12)%Z
      by (symmetry; apply round_near; lra).
    repeat split; try (f_equal; lra); lra.
  - unfold pv_renta_required. rewrite eff_monthly_rate_bankrupt. cbn [bind].
    destruct (Req_dec_T (-1) 0); [lra|].
    rewrite round_1_year. replace (1 + -1) with 0 by lra.
    rewrite float_pow_zero_neg by lia. reflexivity.
Qed.

(** C6 (amended). Over an ordinary annual rate (between −50 % and +100 %)
    and a drawdown of at most a hundred years, the required wealth does not
    fall when the monthly rent grows, and for a monthly rent that is not
    negative it does not fall when the years of drawdown grow, the other two
    arguments held fixed. *)
Theorem pv_renta_required_monotone :
  (forall R1 R2 rate yrs,
     Spec.ordinary_rate rate -> 0 <= yrs <= 100 -> R1 <= R2 ->
     exists v1 v2,
       pv_renta_required R1 rate yrs = Ok v1 /\
       pv_renta_required R2 rate yrs = Ok v2 /\ v1 <= v2) /\
  (forall R rate yrs1 yrs2,
     0 <= R -> Spec.ordinary_rate rate ->
     0 <= yrs1 -> yrs1 <= yrs2 -> yrs2 <= 100 ->
     exists v1 v2,
       pv_renta_required R rate yrs1 = Ok v1 /\
       pv_renta_required R rate yrs2 = Ok v2 /\ v1 <= v2).
Proof.
  assert (Hmonths : forall y, 0 <= y -> (0 <= round (y * 12))%Z).
  { intros y Hy. rewrite <- (round_IZR 0). apply round_mono. lra. }
  split.
  - intros R1 R2 rate yrs Hr [Hy _] HR.
    apply ordinary_rate_above_minus_1 in Hr. apply Hmonths in Hy.
    eexists. eexists.
    split; [apply pv_renta_required_factor; assumption|].
    split; [apply pv_renta_required_factor; assumption|].
    apply Rmult_le_compat_r; [|assumption].
    apply annuity_factor_nonneg. apply effective_rate_growth_pos.
  - intros R rate yrs1 yrs2 HR Hr Hy1 Hy _.
    apply ordinary_rate_above_minus_1 in Hr. apply Hmonths in Hy1.
    assert (Hm : (round (yrs1 * 12) <= round (yrs2 * 12))%Z)
      by (apply round_mono; lra).
    eexists. eexists.
    split; [apply pv_renta_required_factor; assumption|].
    split; [apply pv_renta_required_factor; [assumption | lia]|].
    apply Rmult_le_compat_l; [assumption|].
    apply annuity_factor_months; [apply effective_rate_growth_pos | lia].
Qed.

Lemma pv_renta_required_monotone_witness :
  (exists v1 v2,
     pv_renta_required 30000 (5 / 100) 30 = Ok v1 /\
     pv_renta_required 40000 (5 / 100) 30 = Ok v2 /\ v1 <= v2) /\
  (exists v1 v2,
     pv_renta_required 30000 (5 / 100) 30 = Ok v1 /\
     pv_renta_required 30000 (5 / 100) 31 = Ok v2 /\ v1 <= v2).
Proof.
  split.
  - apply (proj1 pv_renta_required_monotone 30000 40000 (5 / 100) 30).
    + unfold Spec.ordinary_rate. lra.
    + lra.
    + lra.
  - apply (proj2 pv_renta_required_monotone 30000 (5 / 100) 30 31).
    + lra.
    + unfold Spec.ordinary_rate. lra.
    + lra.
    + lra.
    + lra.
Defined.



(** The request without years is answered with exactly this text, and the
    renta request without its two horizons with that one. *)
Lemma post_calc_without_years :
  post_calc body_without_years
  = HTTPError 400 (Text "Missing fields for lump_sum: ['years']") /\
  post_calc body_renta_without_years
  = HTTPError 400
      (Text "Missing fields for renta: ['years_rent', 'years_saving']").
Proof.
  split.
  - unfold post_calc, body_without_years, validate. cbn.
    unfold calc. cbn. reflexivity.
  - unfold post_calc, body_renta_without_years, validate. cbn.
    unfold calc. cbn. reflexivity.
Qed.


(** C8, on the code as it stands: a request for an unknown goal type is
    answered with status 422, not with the 400 the specification states. *)
Lemma unknown_goal_type_is_422 :
  status_of (post_calc body_unknown_goal) = Some 422%Z /\
  status_of (post_calc body_unknown_goal) <> Some 400%Z.
Proof.
  split; [reflexivity | discriminate].
Qed.

(** C8. The 400 for an unknown goal type is the answer [calc] holds for a
    request object whose goal type is neither "lump_sum" nor "renta" (its
    last line), as the specification states it; but no such request object
    reaches [calc]: [goal_type] is declared as a literal of the two values,
    so the validation of the body answers every other value with status 422,
    and the endpoint never answers 400 'Unknown goal_type'. *)
Theorem unknown_goal_type_rejected :
  (forall b : Body.t,
     Body.goal_type b <> Given "lump_sum" ->
     Body.goal_type b <> Given "renta" ->
     post_calc b = HTTPError 422 ValidationErrors) /\
  (forall b : Body.t,
     post_calc b <> HTTPError 400 (Text "Unknown goal_type")) /\
  (forall req : CalcRequest.t,
     CalcRequest.investment_type req ∈ ["one_time"; "monthly"; "combined"] ->
     CalcRequest.goal_type req <> "lump_sum" ->
     CalcRequest.goal_type req <> "renta" ->
     calc req = HTTPError 400 (Text "Unknown goal_type")).
Proof.
  split; [|split; [|exact calc_unknown_goal_type]].
  - intros b H1 H2. unfold post_calc, validate.
    destruct (validate_literal _ (Body.goal_type b)) as [g|] eqn:Eg;
      [|reflexivity].
    apply validate_literal_inv in Eg as [Eg Hg].
    repeat (apply elem_of_cons in Hg as [-> | Hg]); try contradiction.
    apply elem_of_nil in Hg. contradiction.
  - intros b. unfold post_calc.
    destruct (validate b) as [req|] eqn:Hv; [|discriminate].
    apply calc_knows_goal_type.
    apply validate_inv in Hv. tauto.
Qed.

Lemma unknown_goal_type_rejected_witness :
  post_calc body_unknown_goal = HTTPError 422 ValidationErrors.
Proof.
  apply (proj1 unknown_goal_type_rejected body_unknown_goal); discriminate.
Defined.

(* ================================================================== *)
(** ** Further properties of the math library                           *)
(* ================================================================== *)

Module ValueFacts.
Import Py PyFacts Kalkulacka KalkulackaFacts PlanFacts Returns RentaFacts.
Local Open Scope R_scope.

(** Twelve months at the effective monthly rate are one year at the annual
    rate, and so for any whole number of years. *)
Lemma growth_over_years (r : R) (y : Z) :
  -1 < r ->
  powerRZ (1 + Spec.effective_monthly_rate r) (12 * y) = powerRZ (1 + r) y.
Proof.
  intros Hr. pose proof (effective_rate_growth_pos r) as Hq.
  rewrite !powerRZ_Rpower by lra.
  unfold Spec.effective_monthly_rate.
  replace (1 + (Rpower (1 + r) (1 / 12) - 1)) with (Rpower (1 + r) (1 / 12))
    by lra.
  rewrite Rpower_mult, mult_IZR. f_equal. lra.
Qed.

(** Over months that are not negative and at a monthly rate of at least −1,
    the future value of an annuity is the payment times a factor that is not
    negative. *)
Lemma fv_annuity_factor (i : R) (n : Z) :
  -1 <= i -> (0 <= n)%Z ->
  exists c, 0 <= c /\ forall x, fv_annuity x i n = Ok (x * c).
Proof.
  intros Hi Hn. unfold fv_annuity.
  destruct (Req_dec_T i 0) as [Hz | Hnz].
  - exists (IZR n). split; [apply IZR_le; exact Hn | reflexivity].
  - rewrite float_pow_int by (right; exact Hn). cbn [bind].
    exists ((powerRZ (1 + i) n - 1) / i). split.
    + destruct (Z.eq_dec n 0%Z) as [-> | Hn0].
      { cbn [powerRZ]. unfold Rdiv. replace (1 - 1) with 0 by lra. lra. }
      assert (Hn1 : (1 <= n)%Z) by lia.
      destruct (Rlt_dec 0 i) as [Hpos | Hneg].
      * pose proof (powerRZ_gt_1 (1 + i) n ltac:(lra) Hn1).
        apply Rlt_le. apply Rdiv_lt_0_compat; lra.
      * pose proof (powerRZ_lt_1 (1 + i) n ltac:(lra) Hn1).
        replace ((powerRZ (1 + i) n - 1) / i)
          with ((1 - powerRZ (1 + i) n) / (- i)) by (field; assumption).
        apply Rlt_le. apply Rdiv_lt_0_compat; lra.
    + intros x. rewrite float_div_ok by assumption. f_equal.
      field. assumption.
Qed.

(** The conversion returns a real number from −1 on. *)
Lemma eff_monthly_rate_total (r : R) :
  (-1 <= r -> exists i, eff_monthly_rate r = Ok i) /\
  (r < -1 -> eff_monthly_rate r = OutOfReals).
Proof.
  split.
  - intros Hr. destruct (Req_dec_T r (-1)) as [-> | Hne].
    + exists (-1). apply eff_monthly_rate_bankrupt.
    + eexists. apply eff_monthly_rate_pos. lra.
  - apply eff_monthly_rate_complex.
Qed.

End ValueFacts.

Import Py PyFacts Kalkulacka KalkulackaFacts PlanFacts Returns RentaFacts.
Import ValueFacts.
Local Open Scope R_scope.

(** X2. The effective monthly rate never raises.  For an annual rate that
    is not negative it is a number that is not negative, for an annual rate
    from −1 to 0 a number from −1 to 0, at the annual rates 0 and −1 exactly
    0 and −1; below −1 the conversion leaves the real numbers. *)
Theorem eff_monthly_rate_range (r : R) :
  (0 <= r -> exists i, eff_monthly_rate r = Ok i /\ 0 <= i) /\
  (-1 <= r <= 0 -> exists i, eff_monthly_rate r = Ok i /\ -1 <= i <= 0) /\
  (r < -1 -> eff_monthly_rate r = OutOfReals) /\
  (forall e, eff_monthly_rate r <> Raise e) /\
  eff_monthly_rate 0 = Ok 0 /\
  eff_monthly_rate (-1) = Ok (-1).
Proof.
  assert (Hsign : forall x, -1 < x ->
            (0 <= x -> 0 <= Spec.effective_monthly_rate x) /\
            (x <= 0 -> Spec.effective_monthly_rate x <= 0)).
  { intros x Hx. unfold Spec.effective_monthly_rate. split; intros Hs.
    - pose proof (Rle_Rpower_l 1 (1 + x) (1 / 12) ltac:(lra) ltac:(lra)) as HP.
      rewrite Rpower_one in HP. lra.
    - pose proof (Rle_Rpower_l (1 + x) 1 (1 / 12) ltac:(lra) ltac:(lra)) as HP.
      rewrite Rpower_one in HP. lra. }
  split; [|split; [|split; [|split; [|split]]]].
  - intros Hr. exists (Spec.effective_monthly_rate r).
    split; [apply eff_monthly_rate_pos; lra|]. apply Hsign; lra.
  - intros [Hlo Hhi]. destruct (Req_dec_T r (-1)) as [-> | Hne].
    { exists (-1). rewrite eff_monthly_rate_bankrupt. split; [reflexivity | lra]. }
    exists (Spec.effective_monthly_rate r).
    split; [apply eff_monthly_rate_pos; lra|].
    pose proof (effective_rate_growth_pos r) as Hq.
    split; [lra|]. apply Hsign; lra.
  - apply eff_monthly_rate_complex.
  - intros e. unfold eff_monthly_rate, float_pow.
    destruct (Req_dec_T (1 / 12) 0); [lra|].
    destruct (Req_dec_T (1 + r) 0).
    + destruct (Rlt_dec (1 / 12) 0); [lra | discriminate].
    + destruct (Rlt_dec (1 + r) 0).
      * rewrite is_integral_twelfth. discriminate.
      * discriminate.
  - exact eff_monthly_rate_zero.
  - exact eff_monthly_rate_bankrupt.
Qed.

Lemma eff_monthly_rate_range_witness :
  exists i, eff_monthly_rate (7 / 100) = Ok i /\ 0 <= i.
Proof.
  apply (proj1 (eff_monthly_rate_range (7 / 100))). lra.
Defined.

(** X7. The future value of an annuity grows with the payment: over a number
    of months that is not negative and at a monthly rate of at least −1, of
    two payments the larger has the larger future value (or the same), and
    a payment that is not negative has a future value that is not
    negative. *)
Theorem fv_annuity_grows_with_payment (x1 x2 i v1 v2 : R) (n : Z) :
  -1 <= i -> (0 <= n)%Z -> x1 <= x2 ->
  fv_annuity x1 i n = Ok v1 ->
  fv_annuity x2 i n = Ok v2 ->
  v1 <= v2 /\ (0 <= x1 -> 0 <= v1).
Proof.
  intros Hi Hn Hx H1 H2.
  destruct (fv_annuity_factor i n Hi Hn) as (c & Hc & Hv).
  rewrite Hv in H1, H2. injection H1 as <-. injection H2 as <-.
  split.
  - apply Rmult_le_compat_r; assumption.
  - intros Hx1. apply Rmult_le_pos; assumption.
Qed.

Lemma fv_annuity_grows_with_payment_witness :
  100 * 12 <= 200 * 12 /\ (0 <= 100 -> 0 <= 100 * 12).
Proof.
  apply (fv_annuity_grows_with_payment 100 200 0 (100 * 12) (200 * 12) 12).
  - lra.
  - lia.
  - lra.
  - unfold fv_annuity. destruct (Req_dec_T 0 0); [reflexivity | contradiction].
  - unfold fv_annuity. destruct (Req_dec_T 0 0); [reflexivity | contradiction].
Defined.

(* ================================================================== *)
(** ** Further properties of the two calculators                        *)
(* ================================================================== *)

Module ResultFacts.
Import Py PyFacts Kalkulacka KalkulackaFacts PlanFacts Returns RentaFacts.
Local Open Scope R_scope.

(** What a returned lump-sum result is made of, branch by branch. *)
Lemma compute_lump_sum_inv (inp : LumpSumInput.t) (res : dict) :
  compute_lump_sum inp = Ok res ->
  exists i,
    eff_monthly_rate (LumpSumInput.annual_rate_accum inp) = Ok i /\
    let n := round (LumpSumInput.years inp * 12) in
    match LumpSumInput.investment_type inp with
    | ONE_TIME =>
        exists pv,
          pv_from_fv (LumpSumInput.target_amount inp) i n = Ok pv /\
          res = <["required_wealth_today" := VFloat pv]>
                  (Ledger.lump_sum_header inp)
    | MONTHLY =>
        exists m,
          annuity_from_fv (LumpSumInput.target_amount inp) i n = Ok m /\
          res = <["monthly_investment" := VFloat m]>
                  (Ledger.lump_sum_header inp)
    | COMBINED =>
        exists fv m,
          fv_lump_sum (LumpSumInput.one_time_investment inp) i n = Ok fv /\
          annuity_from_fv
            (Spec.remaining_target (LumpSumInput.target_amount inp) fv) i n
          = Ok m /\
          res = <["target_amount_remaining_for_monthly" :=
                    VFloat (Spec.remaining_target
                              (LumpSumInput.target_amount inp) fv)]>
                (<["fv_one_time_investment" := VFloat fv]>
                 (<["monthly_investment" := VFloat m]>
                  (<["one_time_investment" :=
                       VFloat (LumpSumInput.one_time_investment inp)]>
                   (Ledger.lump_sum_header inp))))
    end.
Proof.
  unfold compute_lump_sum, Ledger.lump_sum_header, Spec.remaining_target.
  intros H.
  destruct (eff_monthly_rate _) as [i | |]; try discriminate.
  cbn [bind] in H. exists i. split; [reflexivity|]. cbv zeta.
  destruct (LumpSumInput.investment_type inp).
  - destruct (pv_from_fv _ i _) as [pv | |]; try discriminate.
    cbn [bind] in H. injection H as <-. eauto.
  - destruct (annuity_from_fv _ i _) as [m | |]; try discriminate.
    cbn [bind] in H. injection H as <-. eauto.
  - destruct (fv_lump_sum _ i _) as [fv | |]; try discriminate.
    cbn [bind] in H. rewrite clamp_is_max in H.
    destruct (annuity_from_fv _ i _) as [m | |] eqn:Em; try discriminate.
    cbn [bind] in H. injection H as <-. eauto.
Qed.

Lemma compute_renta_inv (inp : RentaInput.t) (res : dict) :
  compute_renta inp = Ok res ->
  exists w i,
    pv_renta_required (RentaInput.monthly_rent inp)
                      (RentaInput.annual_rate_rent inp)
                      (RentaInput.years_rent inp) = Ok w /\
    eff_monthly_rate (RentaInput.annual_rate_accum inp) = Ok i /\
    let m := round (RentaInput.years_saving inp * 12) in
    match RentaInput.investment_type inp with
    | ONE_TIME =>
        exists pv,
          pv_from_fv w i m = Ok pv /\
          res = <["required_wealth_today" := VFloat pv]>
                  (Ledger.renta_header inp w)
    | MONTHLY =>
        exists mo,
          annuity_from_fv w i m = Ok mo /\
          res = <["monthly_investment" := VFloat mo]>
                  (Ledger.renta_header inp w)
    | COMBINED =>
        exists fv mo,
          fv_lump_sum (RentaInput.one_time_investment inp) i m = Ok fv /\
          annuity_from_fv (Spec.remaining_target w fv) i m = Ok mo /\
          res = <["target_amount_remaining_for_monthly" :=
                    VFloat (Spec.remaining_target w fv)]>
                (<["fv_one_time_investment" := VFloat fv]>
                 (<["monthly_investment" := VFloat mo]>
                  (<["one_time_investment" :=
                       VFloat (RentaInput.one_time_investment inp)]>
                   (Ledger.renta_header inp w))))
    end.
Proof.
  unfold compute_renta, Ledger.renta_header, Spec.remaining_target.
  intros H.
  destruct (pv_renta_required _ _ _) as [w | |]; try discriminate.
  cbn [bind] in H.
  destruct (eff_monthly_rate _) as [i | |]; try discriminate.
  cbn [bind] in H. exists w, i. split; [reflexivity|].
  split; [reflexivity|]. cbv zeta.
  destruct (RentaInput.investment_type inp).
  - destruct (pv_from_fv _ i _) as [pv | |]; try discriminate.
    cbn [bind] in H. injection H as <-. eauto.
  - destruct (annuity_from_fv _ i _) as [m | |]; try discriminate.
    cbn [bind] in H. injection H as <-. eauto.
  - destruct (fv_lump_sum _ i _) as [fv | |]; try discriminate.
    cbn [bind] in H. rewrite clamp_is_max in H.
    destruct (annuity_from_fv _ i _) as [m | |] eqn:Em; try discriminate.
    cbn [bind] in H. injection H as <-. eauto.
Qed.

(** The keys of a record built by insertions over a literal list. *)
Ltac keys_of_record :=
  unfold Ledger.lump_sum_header, Ledger.renta_header,
    Ledger.lump_sum_base_keys, Ledger.renta_base_keys;
  cbn [list_to_map foldr fst snd Ledger.keys_of_branch app];
  rewrite ?lookup_insert_is_Some', ?lookup_empty, ?elem_of_cons, ?elem_of_nil;
  pose proof (@is_Some_None value);
  intuition congruence.

Lemma lump_sum_keys (inp : LumpSumInput.t) (res : dict) (k : string) :
  compute_lump_sum inp = Ok res ->
  is_Some (res !! k)
  <-> k ∈ Ledger.lump_sum_base_keys
          ++ Ledger.keys_of_branch (LumpSumInput.investment_type inp).
Proof.
  intros H. apply compute_lump_sum_inv in H as (i & _ & H). cbv zeta in H.
  destruct (LumpSumInput.investment_type inp).
  - destruct H as (pv & _ & ->). keys_of_record.
  - destruct H as (m & _ & ->). keys_of_record.
  - destruct H as (fv & m & _ & _ & ->). keys_of_record.
Qed.

Lemma renta_keys (inp : RentaInput.t) (res : dict) (k : string) :
  compute_renta inp = Ok res ->
  is_Some (res !! k)
  <-> k ∈ Ledger.renta_base_keys
          ++ Ledger.keys_of_branch (RentaInput.investment_type inp).
Proof.
  intros H. apply compute_renta_inv in H as (w & i & _ & _ & H).
  cbv zeta in H.
  destruct (RentaInput.investment_type inp).
  - destruct H as (pv & _ & ->). keys_of_record.
  - destruct H as (m & _ & ->). keys_of_record.
  - destruct H as (fv & m & _ & _ & ->). keys_of_record.
Qed.

End ResultFacts.

Import ResultFacts.
Import Scenarios MoreScenarios.

(** X10. Every result [compute_lump_sum] returns holds exactly the five keys
    that repeat the input and the keys of the branch taken (one for
    ONE_TIME and MONTHLY, four for COMBINED) and no other key, and under the
    five it repeats the goal type, the input numbers and the value of the
    investment style. *)
Theorem lump_sum_result_shape (inp : LumpSumInput.t) (res : dict) :
  compute_lump_sum inp = Ok res ->
  (forall k,
     is_Some (res !! k)
     <-> k ∈ Ledger.lump_sum_base_keys
             ++ Ledger.keys_of_branch (LumpSumInput.investment_type inp)) /\
  res !! "goal_type" = Some (VStr "lump_sum") /\
  res !! "target_amount" = Some (VFloat (LumpSumInput.target_amount inp)) /\
  res !! "years" = Some (VFloat (LumpSumInput.years inp)) /\
  res !! "annual_rate_accum"
  = Some (VFloat (LumpSumInput.annual_rate_accum inp)) /\
  res !! "investment_type"
  = Some (VStr (InvestmentType_value (LumpSumInput.investment_type inp))).
Proof.
  intros H. split; [intros k; apply lump_sum_keys; exact H|].
  apply compute_lump_sum_inv in H as (i & _ & H). cbv zeta in H.
  destruct (LumpSumInput.investment_type inp) eqn:Et.
  - destruct H as (pv & _ & ->).
    repeat split; try reflexivity. rewrite <- Et. reflexivity.
  - destruct H as (m & _ & ->).
    repeat split; try reflexivity. rewrite <- Et. reflexivity.
  - destruct H as (fv & m & _ & _ & ->).
    repeat split; try reflexivity. rewrite <- Et. reflexivity.
Qed.

Lemma lump_sum_result_shape_witness :
  exists res,
    compute_lump_sum test1_no_interest = Ok res /\
    (forall k,
       is_Some (res !! k)
       <-> k ∈ Ledger.lump_sum_base_keys ++ Ledger.keys_of_branch MONTHLY) /\
    res !! "goal_type" = Some (VStr "lump_sum").
Proof.
  destruct (compute_lump_sum_returns test1_no_interest) as [res Hres].
  - change (-1 < 0). lra.
  - change (round (20 * 12) <> 0%Z).
    replace (round (20 * 12)) with 240%Z
      by (symmetry; apply round_near; lra).
    discriminate.
  - exists res. split; [exact Hres|].
    pose proof (lump_sum_result_shape test1_no_interest res Hres) as H.
    tauto.
Defined.

(** X11. Every result [compute_renta] returns holds exactly the eight keys
    that repeat the input and state the required wealth, and the keys of the
    branch taken; the required wealth it states is what [pv_renta_required]
    returns for the rent, the drawdown rate and the drawdown years. *)
Theorem renta_result_shape (inp : RentaInput.t) (res : dict) :
  compute_renta inp = Ok res ->
  (forall k,
     is_Some (res !! k)
     <-> k ∈ Ledger.renta_base_keys
             ++ Ledger.keys_of_branch (RentaInput.investment_type inp)) /\
  res !! "goal_type" = Some (VStr "renta") /\
  res !! "investment_type"
  = Some (VStr (InvestmentType_value (RentaInput.investment_type inp))) /\
  exists w,
    pv_renta_required (RentaInput.monthly_rent inp)
                      (RentaInput.annual_rate_rent inp)
                      (RentaInput.years_rent inp) = Ok w /\
    res !! "required_wealth_at_rent_start" = Some (VFloat w).
Proof.
  intros H. split; [intros k; apply renta_keys; exact H|].
  apply compute_renta_inv in H as (w & i & Hw & _ & H). cbv zeta in H.
  destruct (RentaInput.investment_type inp) eqn:Et.
  - destruct H as (pv & _ & ->).
    split; [reflexivity|]. split; [rewrite <- Et; reflexivity|].
    exists w. split; auto.
  - destruct H as (m & _ & ->).
    split; [reflexivity|]. split; [rewrite <- Et; reflexivity|].
    exists w. split; auto.
  - destruct H as (fv & m & _ & _ & ->).
    split; [reflexivity|]. split; [rewrite <- Et; reflexivity|].
    exists w. split; auto.
Qed.

Lemma renta_result_shape_witness :
  exists res,
    compute_renta test3 = Ok res /\
    res !! "goal_type" = Some (VStr "renta") /\
    exists w,
      pv_renta_required 30000 (5 / 100) 30 = Ok w /\
      res !! "required_wealth_at_rent_start" = Some (VFloat w).
Proof.
  destruct (compute_renta_returns test3) as [res Hres].
  - change (-1 < 5 / 100). lra.
  - change (-1 < 7 / 100). lra.
  - change (round (18 * 12) <> 0%Z).
    replace (round (18 * 12)) with 216%Z
      by (symmetry; apply round_near; lra).
    discriminate.
  - exists res. split; [exact Hres|].
    pose proof (renta_result_shape test3 res Hres) as H.
    tauto.
Defined.

(** X12. At an annual rate of 0 and over a horizon of one month to a hundred
    years every investment style gets a result; ONE_TIME asks today for the
    target itself, and COMBINED shows the deposit itself as its future
    value. *)
Theorem zero_rate_plans (inp : LumpSumInput.t) :
  LumpSumInput.annual_rate_accum inp = 0 ->
  Spec.ordinary_years (LumpSumInput.years inp) ->
  exists res,
    compute_lump_sum inp = Ok res /\
    (LumpSumInput.investment_type inp = ONE_TIME ->
     res !! "required_wealth_today"
     = Some (VFloat (LumpSumInput.target_amount inp))) /\
    (LumpSumInput.investment_type inp = COMBINED ->
     res !! "fv_one_time_investment"
     = Some (VFloat (LumpSumInput.one_time_investment inp))).
Proof.
  intros Hr Hy.
  assert (Hn : (1 <= round (LumpSumInput.years inp * 12))%Z).
  { destruct Hy as [Hlo _]. rewrite <- (round_IZR 1). apply round_mono. lra. }
  assert (Hone : powerRZ (1 + 0) (round (LumpSumInput.years inp * 12)) = 1).
  { replace (1 + 0) with 1 by lra. apply powerRZ_R1. }
  unfold compute_lump_sum. rewrite Hr, eff_monthly_rate_zero. cbn [bind].
  destruct (LumpSumInput.investment_type inp).
  - rewrite pv_from_fv_ok by lra. cbn [bind]. rewrite Hone.
    eexists. split; [reflexivity|]. split; [|discriminate].
    intros _. rewrite lookup_insert_eq. do 2 f_equal. field.
  - rewrite annuity_from_fv_ok by (try lra; lia). cbn [bind].
    eexists. split; [reflexivity|]. split; discriminate.
  - rewrite fv_lump_sum_ok by (left; lra). cbn [bind]. rewrite Hone.
    rewrite annuity_from_fv_ok by (try lra; lia). cbn [bind].
    eexists. split; [reflexivity|]. split; [discriminate|].
    intros _. rewrite lookup_insert_ne by discriminate.
    rewrite lookup_insert_eq. do 2 f_equal. lra.
Qed.

Lemma zero_rate_plans_witness :
  exists res,
    compute_lump_sum combined_covered = Ok res /\
    (COMBINED = ONE_TIME ->
     res !! "required_wealth_today" = Some (VFloat 120)) /\
    (COMBINED = COMBINED ->
     res !! "fv_one_time_investment" = Some (VFloat 500)).
Proof.
  apply (zero_rate_plans combined_covered).
  - reflexivity.
  - change (Spec.ordinary_years 1). unfold Spec.ordinary_years. lra.
Defined.





(** X15. A horizon that rounds to zero months (annual rate at least −1):
    ONE_TIME returns the target itself as the wealth required today, while
    MONTHLY and COMBINED raise a division by zero. *)
Theorem zero_months_horizon (inp : LumpSumInput.t) :
  -1 <= LumpSumInput.annual_rate_accum inp ->
  round (LumpSumInput.years inp * 12) = 0%Z ->
  match LumpSumInput.investment_type inp with
  | ONE_TIME =>
      exists res,
        compute_lump_sum inp = Ok res /\
        res !! "required_wealth_today"
        = Some (VFloat (LumpSumInput.target_amount inp))
  | MONTHLY | COMBINED => compute_lump_sum inp = Raise ZeroDivisionError
  end.
Proof.
  intros Hr Hn.
  destruct (proj1 (eff_monthly_rate_total _) Hr) as [i Hi].
  unfold compute_lump_sum. rewrite Hi, Hn. cbn [bind].
  destruct (LumpSumInput.investment_type inp).
  - unfold pv_from_fv. rewrite float_pow_int by (right; lia). cbn [bind].
    cbn [powerRZ]. rewrite float_div_ok by lra. cbn [bind].
    eexists. split; [reflexivity|].
    rewrite lookup_insert_eq. do 2 f_equal. field.
  - rewrite annuity_from_fv_no_months. reflexivity.
  - rewrite fv_lump_sum_ok by (right; lia). cbn [bind].
    rewrite annuity_from_fv_no_months. reflexivity.
Qed.

Lemma zero_months_horizon_witness :
  compute_lump_sum two_weeks = Raise ZeroDivisionError.
Proof.
  apply (zero_months_horizon two_weeks).
  - change (-1 <= 0). lra.
  - change (round (1 / 25 * 12) = 0%Z). apply round_two_weeks.
Defined.

(* ================================================================== *)
(** ** Further properties of the endpoint                               *)
(* ================================================================== *)

Module EndpointFacts.
Import Py PyFacts Kalkulacka KalkulackaFacts PlanFacts Returns App AppFacts.
Import Requests.
Local Open Scope R_scope.

(** [calc] on a validated request, path by path. *)
Lemma calc_paths (req : CalcRequest.t) :
  CalcRequest.goal_type req ∈ ["lump_sum"; "renta"] ->
  CalcRequest.investment_type req ∈ ["one_time"; "monthly"; "combined"] ->
  exists t,
    InvestmentType_of_value (CalcRequest.investment_type req) = Ok t /\
    ((CalcRequest.goal_type req = "lump_sum" /\
      ((missing_of req lump_sum_names <> [] /\
        calc req = HTTPError 400
                     (Text ("Missing fields for lump_sum: "
                            +:+ str_list (missing_of req lump_sum_names))))
       \/
       (missing_of req lump_sum_names = [] /\
        calc req
        = guard (rmap Success (compute_lump_sum (lump_sum_input_of req t))))))
     \/
     (CalcRequest.goal_type req = "renta" /\
      ((missing_of req renta_names <> [] /\
        calc req = HTTPError 400
                     (Text ("Missing fields for renta: "
                            +:+ str_list (missing_of req renta_names))))
       \/
       (missing_of req renta_names = [] /\
        calc req
        = guard (rmap Success (compute_renta (renta_input_of req t))))))).
Proof.
  intros Hg Hit.
  destruct (InvestmentType_of_value_valid _ Hit) as [t Ht].
  exists t. split; [exact Ht|].
  unfold calc. rewrite Ht. cbn [bind].
  destruct (decide (CalcRequest.goal_type req = "lump_sum")) as [E | NE].
  - left. split; [exact E|].
    destruct (decide (missing_of req lump_sum_names <> [])) as [M | M].
    + left. split; [exact M | reflexivity].
    + right. split; [|reflexivity].
      destruct (missing_of req lump_sum_names); [reflexivity|].
      exfalso. apply M. discriminate.
  - right.
    assert (E : CalcRequest.goal_type req = "renta").
    { repeat (apply elem_of_cons in Hg as [Hg | Hg]); try contradiction;
        try assumption. apply elem_of_nil in Hg. contradiction. }
    split; [exact E|].
    destruct (decide (CalcRequest.goal_type req = "renta")); [|contradiction].
    destruct (decide (missing_of req renta_names <> [])) as [M | M].
    + left. split; [exact M | reflexivity].
    + right. split; [|reflexivity].
      destruct (missing_of req renta_names); [reflexivity|].
      exfalso. apply M. discriminate.
Qed.

End EndpointFacts.

Import App AppFacts Requests EndpointFacts.

(** X16. The values of the investment styles and the styles are in one-to-one
    correspondence: looking a style up by its own value gives the style
    back, a string that is found is the value of the style found, and any
    string other than the three values raises ValueError. *)
Theorem investment_type_round_trip :
  (forall t, InvestmentType_of_value (InvestmentType_value t) = Ok t) /\
  (forall s t, InvestmentType_of_value s = Ok t -> InvestmentType_value t = s) /\
  (forall s,
     s ∉ ["one_time"; "monthly"; "combined"] ->
     InvestmentType_of_value s = Raise ValueError).
Proof.
  split; [|split].
  - intros []; reflexivity.
  - intros s t. unfold InvestmentType_of_value.
    destruct (decide (s = "one_time")) as [-> | _];
      [intros [= <-]; reflexivity|].
    destruct (decide (s = "monthly")) as [-> | _];
      [intros [= <-]; reflexivity|].
    destruct (decide (s = "combined")) as [-> | _];
      [intros [= <-]; reflexivity | discriminate].
  - intros s Hs. unfold InvestmentType_of_value.
    rewrite !elem_of_cons, elem_of_nil in Hs.
    destruct (decide (s = "one_time")); [tauto|].
    destruct (decide (s = "monthly")); [tauto|].
    destruct (decide (s = "combined")); [tauto | reflexivity].
Qed.

Lemma investment_type_round_trip_witness :
  InvestmentType_of_value "monthly" = Ok MONTHLY /\
  InvestmentType_of_value "yearly" = Raise ValueError.
Proof.
  split.
  - apply (proj1 investment_type_round_trip MONTHLY).
  - apply (proj2 (proj2 investment_type_round_trip) "yearly").
    rewrite !elem_of_cons, elem_of_nil.
    intros [H | [H | [H | H]]]; try discriminate H. exact H.
Defined.

(** X17. POST /calc answers 422 exactly when goal_type is not a given string
    among "lump_sum" and "renta", or investment_type is not a given string
    among "one_time", "monthly" and "combined". *)
Theorem validation_error_iff (b : Body.t) :
  post_calc b = HTTPError 422 ValidationErrors
  <-> ~ ((exists g, Body.goal_type b = Given g /\ g ∈ ["lump_sum"; "renta"]) /\
         (exists s, Body.investment_type b = Given s /\
                    s ∈ ["one_time"; "monthly"; "combined"])).
Proof.
  unfold post_calc. destruct (validate b) as [req|] eqn:Hv.
  - pose proof (validate_inv b req Hv) as (Hg & Hgin & Hsin & _).
    assert (Hs : Body.investment_type b
                 = Given (CalcRequest.investment_type req)).
    { unfold validate in Hv.
      destruct (validate_literal _ (Body.goal_type b)); [|discriminate].
      destruct (validate_literal _ (Body.investment_type b)) as [s0|] eqn:Es;
        [|discriminate].
      apply validate_literal_inv in Es as [Es _].
      injection Hv as <-. exact Es. }
    split.
    + intros H. exfalso.
      pose proof (calc_paths req Hgin Hsin) as (t & _ & Hp).
      destruct Hp as [(_ & [(_ & E) | (_ & E)]) | (_ & [(_ & E) | (_ & E)])];
        rewrite E in H; try discriminate H;
        match type of H with
        | guard (rmap Success ?m) = _ => destruct m; discriminate H
        end.
    + intros H. exfalso. apply H. split; eauto.
  - split; [|reflexivity]. intros _ [(g & Hg & Hgin) (s & Hs & Hsin)].
    unfold validate in Hv. rewrite Hg, Hs in Hv. cbn in Hv.
    destruct (decide (g ∈ ["lump_sum"; "renta"])); [|contradiction].
    destruct (decide (s ∈ ["one_time"; "monthly"; "combined"]));
      [discriminate | contradiction].
Qed.

Lemma or_zero_deposit (f : field R) :
  or_zero (validate_optional (Some 0) f) = deposit_of f.
Proof.
  destruct f as [| |x]; cbn; try reflexivity.
  - destruct (Req_dec_T 0 0); reflexivity.
  - destruct (Req_dec_T x 0); [symmetry; assumption | reflexivity].
Qed.

Lemma guard_answer (m : result dict) :
  guard (rmap Success m) = answer_of m.
Proof. destruct m; reflexivity. Qed.

(** The answer to a body that gives the goal type, the style and the three
    numbers of a lump-sum goal. *)
Lemma post_calc_lump_sum (b : Body.t) (t : InvestmentType) (ta y r : R) :
  Body.goal_type b = Given "lump_sum" ->
  Body.investment_type b = Given (InvestmentType_value t) ->
  Body.target_amount b = Given ta ->
  Body.years b = Given y ->
  Body.annual_rate_accum b = Given r ->
  post_calc b
  = answer_of
      (compute_lump_sum
         {| LumpSumInput.target_amount := ta;
            LumpSumInput.years := y;
            LumpSumInput.annual_rate_accum := r;
            LumpSumInput.investment_type := t;
            LumpSumInput.one_time_investment :=
              deposit_of (Body.one_time_investment b) |}).
Proof.
  intros Hg Hs Hta Hy Hr.
  rewrite <- guard_answer.
  rewrite <- or_zero_deposit.
  unfold post_calc, validate. rewrite Hg, Hs, Hta, Hy, Hr.
  destruct t; reflexivity.
Qed.







(** X19. A complete lump-sum request of the monthly or the combined style
    whose horizon rounds to zero months (annual rate at least −1) is answered
    with status 500 and the text of a division by zero. *)
Theorem zero_months_request_is_500 (b : Body.t) (t : InvestmentType)
        (ta y r : R) :
  Body.goal_type b = Given "lump_sum" ->
  Body.investment_type b = Given (InvestmentType_value t) ->
  t <> ONE_TIME ->
  Body.target_amount b = Given ta ->
  Body.years b = Given y ->
  Body.annual_rate_accum b = Given r ->
  -1 <= r ->
  round (y * 12) = 0%Z ->
  post_calc b = HTTPError 500 (StrOf ZeroDivisionError).
Proof.
  intros Hg Hs Ht Hta Hy Hr Hrate Hn.
  rewrite (post_calc_lump_sum b t ta y r) by assumption.
  destruct (proj1 (ValueFacts.eff_monthly_rate_total r) Hrate) as [i Hi].
  unfold compute_lump_sum.
  cbn [LumpSumInput.annual_rate_accum LumpSumInput.years
       LumpSumInput.investment_type LumpSumInput.target_amount
       LumpSumInput.one_time_investment].
  rewrite Hi, Hn. cbn [bind].
  destruct t; [contradiction | |].
  - rewrite annuity_from_fv_no_months. reflexivity.
  - rewrite fv_lump_sum_ok by (right; lia). cbn [bind].
    rewrite annuity_from_fv_no_months. reflexivity.
Qed.

Lemma zero_months_request_is_500_witness :
  post_calc body_two_weeks = HTTPError 500 (StrOf ZeroDivisionError).
Proof.
  apply (zero_months_request_is_500 body_two_weeks MONTHLY
           1000000 (1 / 25) (7 / 100)); try reflexivity.
  - discriminate.
  - lra.
  - apply round_two_weeks.
Defined.




(* ================================================================== *)
(** ** The console helpers                                              *)
(* ================================================================== *)

Module ConsoleFacts.
Import Stdlib.Strings.Ascii.
Import Py PyFacts Kalkulacka Console.
Local Open Scope R_scope.

Lemma all_chars_app (P : Ascii.ascii -> bool) (s t : string) :
  all_chars P (s +:+ t) = all_chars P s && all_chars P t.
Proof.
  induction s as [|c s IH]; simpl; [reflexivity|].
  rewrite IH, andb_assoc. reflexivity.
Qed.

Lemma all_chars_weaken (P Q : Ascii.ascii -> bool) (s : string) :
  (forall c, P c = true -> Q c = true) ->
  all_chars P s = true -> all_chars Q s = true.
Proof.
  intros H. induction s as [|c s IH]; simpl; [reflexivity|].
  rewrite !andb_true_iff. intros [Hc Hs]. auto.
Qed.

Lemma digits_are_digits (n : N) : all_chars is_digit (digits n) = true.
Proof.
  unfold digits.
  assert (H : forall d, all_chars is_digit (NilEmpty.string_of_uint d) = true).
  { induction d; simpl; try reflexivity; exact IHd. }
  destruct (N.to_uint n); try apply H. reflexivity.
Qed.

Lemma remove_char_app (c : Ascii.ascii) (s t : string) :
  remove_char c (s +:+ t) = remove_char c s +:+ remove_char c t.
Proof.
  induction s as [|a s IH]; simpl; [reflexivity|].
  destruct (Ascii.eqb a c); simpl; rewrite IH; reflexivity.
Qed.

Lemma replace_char_app (c d : Ascii.ascii) (s t : string) :
  replace_char c d (s +:+ t) = replace_char c d s +:+ replace_char c d t.
Proof.
  induction s as [|a s IH]; simpl; [reflexivity|]. rewrite IH. reflexivity.
Qed.

Lemma remove_char_absent (c : Ascii.ascii) (s : string) :
  all_chars (fun a => negb (Ascii.eqb a c)) s = true -> remove_char c s = s.
Proof.
  induction s as [|a s IH]; simpl; [reflexivity|].
  rewrite andb_true_iff. intros [Ha Hs].
  destruct (Ascii.eqb a c); [discriminate|]. rewrite IH by assumption.
  reflexivity.
Qed.

Lemma replace_char_absent (c d : Ascii.ascii) (s : string) :
  all_chars (fun a => negb (Ascii.eqb a c)) s = true -> replace_char c d s = s.
Proof.
  induction s as [|a s IH]; simpl; [reflexivity|].
  rewrite andb_true_iff. intros [Ha Hs].
  destruct (Ascii.eqb a c); [discriminate|]. rewrite IH by assumption.
  reflexivity.
Qed.

(** After [replace], the replaced character is gone (when it is not put
    back). *)
Lemma replace_char_gone (c d : Ascii.ascii) (s : string) :
  Ascii.eqb d c = false ->
  all_chars (fun a => negb (Ascii.eqb a c)) (replace_char c d s) = true.
Proof.
  intros Hd. induction s as [|a s IH]; simpl; [reflexivity|].
  rewrite IH, andb_true_r.
  destruct (Ascii.eqb a c) eqn:E; [rewrite Hd | rewrite E]; reflexivity.
Qed.

Lemma remove_char_gone (c : Ascii.ascii) (s : string) :
  all_chars (fun a => negb (Ascii.eqb a c)) (remove_char c s) = true.
Proof.
  induction s as [|a s IH]; simpl; [reflexivity|].
  destruct (Ascii.eqb a c) eqn:E; [exact IH|]. simpl. rewrite E, IH.
  reflexivity.
Qed.

(** Replacing a character other than [c] leaves a string free of [c] free
    of [c], provided [c] is not what is put in. *)
Lemma replace_char_keeps_absent (c a d : Ascii.ascii) (s : string) :
  Ascii.eqb d c = false ->
  all_chars (fun x => negb (Ascii.eqb x c)) s = true ->
  all_chars (fun x => negb (Ascii.eqb x c)) (replace_char a d s) = true.
Proof.
  intros Hd. induction s as [|x s IH]; simpl; [reflexivity|].
  rewrite !andb_true_iff. intros [Hx Hs]. split; [|auto].
  destruct (Ascii.eqb x a); [rewrite Hd; reflexivity | exact Hx].
Qed.

Lemma not_space_is_not_blank (a : Ascii.ascii) :
  is_space a = false -> Ascii.eqb a " " = false.
Proof.
  intros H. destruct (Ascii.eqb a " ") eqn:E; [|reflexivity].
  apply Ascii.eqb_eq in E. subst a. discriminate H.
Qed.

Lemma remove_space_lstrip (s : string) :
  spaces_only s = true ->
  remove_char " " (lstrip s) = remove_char " " s /\
  spaces_only (lstrip s) = true.
Proof.
  unfold spaces_only. induction s as [|a s IH]; cbn; [auto|].
  rewrite andb_true_iff. intros [Ha Hs].
  destruct (is_space a) eqn:Ea; cbn in Ha.
  - rewrite Ha. apply IH. exact Hs.
  - cbn. rewrite Ea, Hs. cbn. auto.
Qed.

Lemma remove_space_rstrip (s : string) :
  spaces_only s = true ->
  remove_char " " (rstrip s) = remove_char " " s.
Proof.
  unfold spaces_only. induction s as [|a s IH]; cbn; [reflexivity|].
  rewrite andb_true_iff. intros [Ha Hs]. specialize (IH Hs).
  destruct (rstrip s) as [|b r] eqn:Er.
  - cbn in IH. destruct (is_space a) eqn:Ea; cbn in Ha.
    + rewrite Ha. exact IH.
    + cbn. rewrite (not_space_is_not_blank a Ea). rewrite <- IH. reflexivity.
  - cbn [remove_char]. destruct (Ascii.eqb a " "); rewrite <- IH; reflexivity.
Qed.

Lemma remove_space_strip (s : string) :
  spaces_only s = true ->
  remove_char " " (strip s) = remove_char " " s.
Proof.
  intros H. unfold strip.
  destruct (remove_space_lstrip s H) as [E Hl].
  rewrite remove_space_rstrip by exact Hl. exact E.
Qed.

(** Strings as lists of characters. *)
Lemma remove_char_of_list (c : Ascii.ascii) (l : list Ascii.ascii) :
  remove_char c (String.string_of_list_ascii l)
  = String.string_of_list_ascii (List.filter (fun a => negb (Ascii.eqb a c)) l).
Proof.
  induction l as [|a l IH]; cbn; [reflexivity|].
  destruct (Ascii.eqb a c); cbn; rewrite IH; reflexivity.
Qed.

Lemma replace_char_of_list (c d : Ascii.ascii) (l : list Ascii.ascii) :
  replace_char c d (String.string_of_list_ascii l)
  = String.string_of_list_ascii
      (List.map (fun a => if Ascii.eqb a c then d else a) l).
Proof.
  induction l as [|a l IH]; cbn; [reflexivity|]. rewrite IH. reflexivity.
Qed.

Lemma all_chars_of_list (P : Ascii.ascii -> bool) (l : list Ascii.ascii) :
  all_chars P (String.string_of_list_ascii l) = forallb P l.
Proof.
  induction l as [|a l IH]; cbn; [reflexivity|]. rewrite IH. reflexivity.
Qed.

Lemma all_chars_to_list (P : Ascii.ascii -> bool) (s : string) :
  forallb P (String.list_ascii_of_string s) = all_chars P s.
Proof.
  induction s as [|a s IH]; cbn; [reflexivity|]. rewrite IH. reflexivity.
Qed.

(** Taking the separators out of the grouped digits gives the digits back. *)
Lemma ungroup_from_right (sep : Ascii.ascii) (l : list Ascii.ascii) (k : nat) :
  forallb (fun a => negb (Ascii.eqb a sep)) l = true ->
  List.filter (fun a => negb (Ascii.eqb a sep)) (group_from_right sep l k) = l.
Proof.
  revert k. induction l as [|d l IH]; intros k; cbn; [reflexivity|].
  rewrite andb_true_iff. intros [Hd Hl].
  destruct k as [|[|[|[|k]]]]; cbn; rewrite ?Ascii.eqb_refl; cbn;
    rewrite Hd, IH by exact Hl; reflexivity.
Qed.

Lemma filter_rev {A : Type} (f : A -> bool) (l : list A) :
  List.filter f (rev l) = rev (List.filter f l).
Proof.
  induction l as [|a l IH]; cbn; [reflexivity|].
  rewrite List.filter_app, IH. cbn. destruct (f a); cbn.
  - reflexivity.
  - rewrite app_nil_r. reflexivity.
Qed.

Lemma forallb_rev {A : Type} (f : A -> bool) (l : list A) :
  forallb f (rev l) = forallb f l.
Proof.
  induction l as [|a l IH]; cbn; [reflexivity|].
  rewrite forallb_app, IH. cbn. rewrite andb_true_r, andb_comm. reflexivity.
Qed.

Lemma ungroup_thousands (sep : Ascii.ascii) (s : string) :
  all_chars (fun a => negb (Ascii.eqb a sep)) s = true ->
  remove_char sep (group_thousands sep s) = s.
Proof.
  intros H. unfold group_thousands.
  rewrite remove_char_of_list, filter_rev, ungroup_from_right.
  - rewrite rev_involutive. apply String.string_of_list_ascii_of_string.
  - rewrite forallb_rev, all_chars_to_list. exact H.
Qed.

(** Grouping with commas and then turning the commas into spaces is grouping
    with spaces. *)
Lemma regroup_from_right (c d : Ascii.ascii) (l : list Ascii.ascii) (k : nat) :
  forallb (fun a => negb (Ascii.eqb a c)) l = true ->
  List.map (fun a => if Ascii.eqb a c then d else a) (group_from_right c l k)
  = group_from_right d l k.
Proof.
  revert k. induction l as [|x l IH]; intros k; cbn; [reflexivity|].
  rewrite andb_true_iff. intros [Hx Hl].
  apply negb_true_iff in Hx.
  destruct k as [|[|[|[|k]]]]; cbn; rewrite ?Ascii.eqb_refl, ?Hx, IH
    by exact Hl; reflexivity.
Qed.

Lemma regroup_thousands (c d : Ascii.ascii) (s : string) :
  all_chars (fun a => negb (Ascii.eqb a c)) s = true ->
  replace_char c d (group_thousands c s) = group_thousands d s.
Proof.
  intros H. unfold group_thousands.
  rewrite replace_char_of_list, map_rev, regroup_from_right; [reflexivity|].
  rewrite forallb_rev, all_chars_to_list. exact H.
Qed.

(** What the grouped digits are made of. *)
Lemma group_from_right_chars (P : Ascii.ascii -> bool) (sep : Ascii.ascii)
      (l : list Ascii.ascii) (k : nat) :
  P sep = true -> forallb P l = true ->
  forallb P (group_from_right sep l k) = true.
Proof.
  intros Hsep. revert k. induction l as [|x l IH]; intros k; cbn;
    [reflexivity|].
  rewrite andb_true_iff. intros [Hx Hl].
  destruct k as [|[|[|[|k]]]]; cbn; rewrite ?Hsep, Hx, IH by exact Hl;
    reflexivity.
Qed.

Lemma group_thousands_chars (P : Ascii.ascii -> bool) (sep : Ascii.ascii)
      (s : string) :
  P sep = true -> all_chars P s = true ->
  all_chars P (group_thousands sep s) = true.
Proof.
  intros Hsep H. unfold group_thousands.
  rewrite all_chars_of_list, forallb_rev.
  apply group_from_right_chars; [exact Hsep|].
  rewrite forallb_rev, all_chars_to_list. exact H.
Qed.

(** [pretty] is the sign followed by the digits grouped with spaces. *)
Lemma pretty_grouped (num : R) :
  pretty num
  = (if Rlt_dec num 0 then "-" else "")
    +:+ group_thousands " " (digits (Z.abs_N (round num))).
Proof.
  unfold pretty, format_thousands. rewrite replace_char_app.
  rewrite regroup_thousands.
  - destruct (Rlt_dec num 0); reflexivity.
  - eapply all_chars_weaken; [|apply digits_are_digits].
    intros c Hc. destruct c as [[] [] [] [] [] [] [] []]; try discriminate Hc;
      reflexivity.
Qed.

End ConsoleFacts.

Import Stdlib.Strings.Ascii.
Import Console ConsoleFacts.

(** A few figures as [pretty] prints them: groups of three, ties to even, a
    minus sign also before a zero. *)
Lemma pretty_examples :
  pretty 1234567 = "1 234 567" /\
  pretty (1999 / 2) = "1 000" /\
  pretty (- (2469 / 2)) = "-1 234" /\
  pretty (- (1 / 4)) = "-0" /\
  pretty 0 = "0".
Proof.
  assert (H : forall (x : R) (z : Z),
             IZR z - 1 / 2 < x < IZR z + 1 / 2 ->
             pretty x = (if Rlt_dec x 0 then "-" else "")
                        +:+ group_thousands " "%char (digits (Z.abs_N z))).
  { intros x z Hx. rewrite pretty_grouped, (round_near x z Hx). reflexivity. }
  assert (T : forall (x : R) (z : Z),
             x = IZR z + 1 / 2 ->
             round x = if Z.even z then z else (z + 1)%Z).
  { intros x z Hx.
    assert (Hz : z = Int_part x) by (apply Int_part_spec; split; lra).
    unfold round, frac_part. rewrite <- Hz.
    destruct (Rlt_dec (x - IZR z) (1 / 2)); [lra|].
    destruct (Rlt_dec (1 / 2) (x - IZR z)); [lra | reflexivity]. }
  repeat split.
  - rewrite (H 1234567 1234567%Z) by lra.
    destruct (Rlt_dec 1234567 0); [lra | reflexivity].
  - rewrite pretty_grouped, (T (1999 / 2) 999%Z) by lra.
    destruct (Rlt_dec (1999 / 2) 0); [lra | reflexivity].
  - rewrite pretty_grouped, (T (- (2469 / 2)) (-1235)%Z) by lra.
    destruct (Rlt_dec (- (2469 / 2)) 0); [reflexivity | lra].
  - rewrite (H (- (1 / 4)) 0%Z) by lra.
    destruct (Rlt_dec (- (1 / 4)) 0); [reflexivity | lra].
  - rewrite (H 0 0%Z) by lra.
    destruct (Rlt_dec 0 0); [lra | reflexivity].
Qed.

(** X22. What [pretty] prints holds no comma, and [ask_float] reads it back:
    stripped, with the spaces taken out and commas turned into dots, it is
    the plain numeral of the number rounded to an integer (ties to even),
    with a minus sign for a negative number. *)
Theorem pretty_reads_back (num : R) :
  normalize (pretty num)
  = (if Rlt_dec num 0 then "-" else "") +:+ digits (Z.abs_N (round num)) /\
  all_chars (fun a => negb (Ascii.eqb a ","%char)) (pretty num) = true.
Proof.
  pose proof (digits_are_digits (Z.abs_N (round num))) as Hd.
  set (ds := digits (Z.abs_N (round num))) in *.
  set (sign := if Rlt_dec num 0 then "-" else "").
  assert (Hsign : forall P : Ascii.ascii -> bool,
             P "-"%char = true -> all_chars P sign = true).
  { intros P HP. unfold sign. destruct (Rlt_dec num 0); cbn;
      [rewrite HP|]; reflexivity. }
  assert (Hdig : forall P : Ascii.ascii -> bool,
             (forall c, is_digit c = true -> P c = true) ->
             all_chars P ds = true).
  { intros P HP. eapply all_chars_weaken; [exact HP | exact Hd]. }
  assert (Hno : forall c : Ascii.ascii,
             is_digit c = false -> forall a, is_digit a = true ->
             negb (Ascii.eqb a c) = true).
  { intros c Hc a Ha. destruct (Ascii.eqb a c) eqn:E; [|reflexivity].
    apply Ascii.eqb_eq in E. subst a. rewrite Hc in Ha. discriminate. }
  rewrite pretty_grouped. fold sign. fold ds. split.
  - unfold normalize. rewrite remove_space_strip.
    + rewrite remove_char_app, ungroup_thousands
        by (apply Hdig; apply Hno; reflexivity).
      rewrite remove_char_absent by (apply Hsign; reflexivity).
      apply replace_char_absent. rewrite all_chars_app.
      rewrite Hsign by reflexivity.
      apply Hdig. apply Hno. reflexivity.
    + unfold spaces_only. rewrite all_chars_app.
      rewrite Hsign by reflexivity.
      apply group_thousands_chars; [reflexivity|].
      apply Hdig. intros c Hc.
      destruct c as [[] [] [] [] [] [] [] []]; try discriminate Hc;
        reflexivity.
  - rewrite all_chars_app. rewrite Hsign by reflexivity.
    apply group_thousands_chars; [reflexivity|].
    apply Hdig. apply Hno. reflexivity.
Qed.

Lemma lstrip_replace (c d : Ascii.ascii) (s : string) :
  is_space c = false -> is_space d = false ->
  lstrip (replace_char c d s) = replace_char c d (lstrip s).
Proof.
  intros Hc Hd. induction s as [|a s IH]; simpl; [reflexivity|].
  destruct (Ascii.eqb a c) eqn:E.
  - apply Ascii.eqb_eq in E. subst a. rewrite Hc, Hd. simpl.
    rewrite Ascii.eqb_refl. reflexivity.
  - destruct (is_space a); [exact IH|]. simpl. rewrite E. reflexivity.
Qed.

Lemma rstrip_replace (c d : Ascii.ascii) (s : string) :
  is_space c = false -> is_space d = false ->
  rstrip (replace_char c d s) = replace_char c d (rstrip s).
Proof.
  intros Hc Hd. induction s as [|a s IH]; simpl; [reflexivity|].
  rewrite IH. destruct (rstrip s) as [|b r]; simpl.
  - destruct (Ascii.eqb a c) eqn:E.
    + apply Ascii.eqb_eq in E. subst a. rewrite Hc, Hd. simpl.
      rewrite Ascii.eqb_refl. reflexivity.
    + destruct (is_space a); [reflexivity|]. simpl. rewrite E. reflexivity.
  - reflexivity.
Qed.

Lemma remove_replace (c a d : Ascii.ascii) (s : string) :
  Ascii.eqb a c = false -> Ascii.eqb d c = false ->
  remove_char c (replace_char a d s) = replace_char a d (remove_char c s).
Proof.
  intros Ha Hd. induction s as [|x s IH]; simpl; [reflexivity|].
  destruct (Ascii.eqb x a) eqn:E.
  - apply Ascii.eqb_eq in E. subst x. rewrite Hd, Ha. simpl.
    rewrite Ascii.eqb_refl, IH. reflexivity.
  - destruct (Ascii.eqb x c); [exact IH|]. simpl. rewrite E, IH. reflexivity.
Qed.

Lemma replace_replace (c d : Ascii.ascii) (s : string) :
  Ascii.eqb d c = false ->
  replace_char c d (replace_char c d s) = replace_char c d s.
Proof.
  intros Hd. apply replace_char_absent. apply replace_char_gone. exact Hd.
Qed.

(** X23. What [ask_float] hands to [float] holds neither a space nor a
    comma, and a decimal comma is read as a decimal point: a line and the
    same line with its commas written as dots are handed on alike. *)
Theorem normalize_decimal_comma (raw : string) :
  all_chars (fun a => negb (Ascii.eqb a " "%char)) (normalize raw) = true /\
  all_chars (fun a => negb (Ascii.eqb a ","%char)) (normalize raw) = true /\
  normalize (replace_char ","%char "."%char raw) = normalize raw.
Proof.
  unfold normalize. split; [|split].
  - apply replace_char_keeps_absent; [reflexivity|]. apply remove_char_gone.
  - apply replace_char_gone. reflexivity.
  - unfold strip.
    rewrite lstrip_replace, rstrip_replace by reflexivity.
    rewrite remove_replace by reflexivity.
    apply replace_replace. reflexivity.
Qed.

Lemma normalize_example : normalize "  1 000,5 " = "1000.5".
Proof. reflexivity. Qed.

Section AskFloat.

Variable float_of_str : string -> option R.

Lemma ask_float_loop_retries (prompt : string) (bad rest : list string)
      (written : list string) :
  Forall (fun raw => float_of_str (normalize raw) = None) bad ->
  ask_float_loop float_of_str prompt (bad ++ rest) written
  = ask_float_loop float_of_str prompt rest
      (written ++ turned_down (prompt +:+ " ") not_a_number (length bad)).
Proof.
  intros H. revert written. induction H as [|raw bad Hraw Hbad IH];
    intros written.
  - cbn. rewrite app_nil_r. reflexivity.
  - cbn [app ask_float_loop length]. rewrite Hraw, IH.
    f_equal. unfold turned_down. cbn [repeat concat].
    rewrite <- !app_assoc. reflexivity.
Qed.

(** X24. [ask_float] asks until a line reads as a number: when the lines [bad]
    are all refused by [float] and the next line reads as x, it returns x,
    has asked once per line and complained once per refused line, in that
    order, and leaves the lines after it unread. *)
Theorem ask_float_retries_until_number (prompt : string)
        (bad : list string) (good : string) (rest written : list string)
        (x : R) :
  Forall (fun raw => float_of_str (normalize raw) = None) bad ->
  float_of_str (normalize good) = Some x ->
  ask_float float_of_str prompt
    {| stdin := bad ++ good :: rest; stdout := written |}
  = Returned x
      {| stdin := rest;
         stdout := written
                   ++ turned_down (prompt +:+ " ") not_a_number (length bad)
                   ++ [prompt +:+ " "] |}.
Proof.
  intros Hbad Hgood. unfold ask_float. cbn [stdin stdout].
  rewrite ask_float_loop_retries by exact Hbad.
  cbn [ask_float_loop]. rewrite Hgood, <- app_assoc. reflexivity.
Qed.

(** X25. [ask_float] never returns anything but a number read from a line:
    if it returns x, then x is what [float] reads from one of the lines,
    every line before that one is refused, and the lines after it are left;
    and if no line reads as a number it ends in EOFError with all the input
    used up. *)
Theorem ask_float_returns_what_was_typed (prompt : string) (c : console) :
  (forall x c',
     ask_float float_of_str prompt c = Returned x c' ->
     exists bad good,
       stdin c = bad ++ good :: stdin c' /\
       Forall (fun raw => float_of_str (normalize raw) = None) bad /\
       float_of_str (normalize good) = Some x) /\
  (Forall (fun raw => float_of_str (normalize raw) = None) (stdin c) ->
   ask_float float_of_str prompt c
   = EOFError
       {| stdin := [];
          stdout := stdout c
                    ++ turned_down (prompt +:+ " ") not_a_number
                         (length (stdin c))
                    ++ [prompt +:+ " "] |}).
Proof.
  unfold ask_float. split.
  - generalize (stdout c) as written.
    induction (stdin c) as [|raw lines IH]; intros written x c' H.
    + discriminate H.
    + cbn [ask_float_loop] in H.
      destruct (float_of_str (normalize raw)) as [y|] eqn:E.
      * injection H as <- <-. exists [], raw. cbn. auto.
      * apply IH in H as (bad & good & Hin & Hbad & Hgood).
        exists (raw :: bad), good. cbn. rewrite Hin. auto.
  - intros H.
    pose proof (ask_float_loop_retries prompt (stdin c) [] (stdout c) H) as E.
    rewrite app_nil_r in E. rewrite E.
    cbn [ask_float_loop]. rewrite <- app_assoc. reflexivity.
Qed.

End AskFloat.

Lemma ask_choice_loop_retries (choices : list (string * string))
      (bad rest written : list string) :
  Forall (fun raw => has_key choices (strip raw) = false) bad ->
  ask_choice_loop choices (bad ++ rest) written
  = ask_choice_loop choices rest
      (written ++ turned_down your_choice invalid_choice (length bad)).
Proof.
  intros H. revert written. induction H as [|raw bad Hraw Hbad IH];
    intros written.
  - cbn. rewrite app_nil_r. reflexivity.
  - cbn [app ask_choice_loop length]. rewrite Hraw, IH.
    f_equal. unfold turned_down. cbn [repeat concat].
    rewrite <- !app_assoc. reflexivity.
Qed.

(** X26. [ask_choice] writes the prompt and one line per choice, in the order
    of the dictionary, and then asks until a line, stripped, is one of the
    keys: on lines of ASCII characters it returns that stripped line, has
    complained once per line it turned down, and leaves the later lines
    unread. *)
Theorem ask_choice_retries_until_key (prompt : string)
        (choices : list (string * string))
        (bad : list string) (good : string) (rest written : list string) :
  Forall (fun raw => ascii_only raw = true) (bad ++ [good]) ->
  Forall (fun raw => has_key choices (strip raw) = false) bad ->
  has_key choices (strip good) = true ->
  ask_choice prompt choices
    {| stdin := bad ++ good :: rest; stdout := written |}
  = Returned (strip good)
      {| stdin := rest;
         stdout := written
                   ++ [prompt +:+ newline] ++ map menu_line choices
                   ++ turned_down your_choice invalid_choice (length bad)
                   ++ [your_choice] |}.
Proof.
  intros _ Hbad Hgood. unfold ask_choice. cbn [stdin stdout].
  rewrite ask_choice_loop_retries by exact Hbad.
  cbn [ask_choice_loop]. rewrite Hgood.
  rewrite <- !app_assoc. reflexivity.
Qed.

(** X27. Whatever [ask_choice] returns is a key of the choices; and when the
    lines to read are of ASCII characters and none of them, stripped, is a
    key (so with no choices at all), it ends in EOFError with all the input
    used up. *)
Theorem ask_choice_returns_a_key (prompt : string)
        (choices : list (string * string)) (c : console) :
  (forall ans c',
     ask_choice prompt choices c = Returned ans c' ->
     ans ∈ map fst choices) /\
  (Forall (fun raw => ascii_only raw = true) (stdin c) ->
   Forall (fun raw => has_key choices (strip raw) = false) (stdin c) ->
   exists c', ask_choice prompt choices c = EOFError c' /\ stdin c' = []).
Proof.
  unfold ask_choice. split.
  - generalize (stdout c ++ [prompt +:+ newline] ++ map menu_line choices)
      as written.
    induction (stdin c) as [|raw lines IH]; intros written ans c' H.
    + discriminate H.
    + cbn [ask_choice_loop] in H.
      destruct (has_key choices (strip raw)) eqn:E.
      * injection H as <- <-. unfold has_key in E.
        apply bool_decide_eq_true in E. exact E.
      * apply IH in H. exact H.
  - intros _ H.
    pose proof (ask_choice_loop_retries choices (stdin c) []
                  (stdout c ++ [prompt +:+ newline] ++ map menu_line choices)
                  H) as E.
    rewrite app_nil_r in E. rewrite E.
    cbn [ask_choice_loop]. eexists. split; reflexivity.
Qed.

Lemma ask_float_retries_until_number_witness :
  ask_float reads_seven_and_a_half "Sazba?"
    {| stdin := ["sedm"; " 7,5 "; "2"]; stdout := [] |}
  = Returned (15 / 2)
      {| stdin := ["2"];
         stdout := [] ++ turned_down ("Sazba?" +:+ " ") not_a_number 1
                      ++ ["Sazba?" +:+ " "] |}.
Proof.
  apply (ask_float_retries_until_number reads_seven_and_a_half "Sazba?"
           ["sedm"] " 7,5 " ["2"] [] (15 / 2)).
  - repeat constructor.
  - reflexivity.
Defined.

Lemma ask_float_returns_what_was_typed_witness :
  ask_float reads_seven_and_a_half "Sazba?"
    {| stdin := ["sedm"; "7_5"]; stdout := [] |}
  = EOFError
      {| stdin := [];
         stdout := [] ++ turned_down ("Sazba?" +:+ " ") not_a_number 2
                      ++ ["Sazba?" +:+ " "] |}.
Proof.
  apply (proj2 (ask_float_returns_what_was_typed reads_seven_and_a_half
                  "Sazba?" {| stdin := ["sedm"; "7_5"]; stdout := [] |})).
  repeat constructor.
Defined.

Lemma ask_choice_retries_until_key_witness :
  ask_choice "Jak chcete investovat?" style_menu
    {| stdin := ["4"; " 2 "; "x"]; stdout := [] |}
  = Returned (strip " 2 ")
      {| stdin := ["x"];
         stdout := [] ++ ["Jak chcete investovat?" +:+ newline]
                      ++ map menu_line style_menu
                      ++ turned_down your_choice invalid_choice 1
                      ++ [your_choice] |}.
Proof.
  apply (ask_choice_retries_until_key "Jak chcete investovat?" style_menu
           ["4"] " 2 " ["x"] []).
  - repeat constructor.
  - repeat constructor.
  - reflexivity.
Defined.

Lemma ask_choice_returns_a_key_witness :
  exists c',
    ask_choice "Jak chcete investovat?" style_menu
      {| stdin := ["4"; "ano"]; stdout := [] |} = EOFError c' /\
    stdin c' = [].
Proof.
  apply (proj2 (ask_choice_returns_a_key "Jak chcete investovat?" style_menu
                  {| stdin := ["4"; "ano"]; stdout := [] |})).
  - repeat constructor.
  - repeat constructor.
Defined.

(* ================================================================== *)
(** ** The manual tests                                                 *)
(* ================================================================== *)

Module TestFacts.
Import Stdlib.Strings.Ascii.
Import Py PyFacts Kalkulacka KalkulackaFacts PlanFacts Returns RentaFacts.
Import ValueFacts Console ConsoleFacts ManualTests.
Local Open Scope R_scope.

(** Bounds on the effective monthly rate from bounds on its twelfth
    power. *)
Lemma effective_monthly_rate_between (r a b : R) :
  0 < 1 + a ->
  (1 + a) ^ 12 < 1 + r -> 1 + r < (1 + b) ^ 12 -> 0 < 1 + b ->
  a < Spec.effective_monthly_rate r < b.
Proof.
  intros Ha Hl Hu Hb.
  assert (root : forall c, 0 < c -> Rpower (c ^ 12) (1 / 12) = c).
  { intros c Hc. rewrite <- Rpower_pow by assumption.
    rewrite Rpower_mult. replace (INR 12 * (1 / 12)) with 1 by (simpl; field).
    apply Rpower_1. assumption. }
  assert (Hpa : 0 < (1 + a) ^ 12) by (apply pow_lt; assumption).
  unfold Spec.effective_monthly_rate. split.
  - pose proof (Rlt_Rpower_l ((1 + a) ^ 12) (1 + r) (1 / 12)
                  ltac:(lra) ltac:(lra)) as H.
    rewrite root in H by assumption. lra.
  - pose proof (Rlt_Rpower_l (1 + r) ((1 + b) ^ 12) (1 / 12)
                  ltac:(lra) ltac:(lra)) as H.
    rewrite root in H by assumption. lra.
Qed.

Lemma rate_7_percent :
  5654145 / 1000000000 < Spec.effective_monthly_rate (7 / 100)
  < 5654146 / 1000000000.
Proof. apply effective_monthly_rate_between; lra. Qed.

Lemma rate_8_percent :
  6434030 / 1000000000 < Spec.effective_monthly_rate (8 / 100)
  < 6434031 / 1000000000.
Proof. apply effective_monthly_rate_between; lra. Qed.

Lemma rate_5_percent :
  407412378 / 100000000000 < Spec.effective_monthly_rate (5 / 100)
  < 407412379 / 100000000000.
Proof. apply effective_monthly_rate_between; lra. Qed.

(** A quotient between bounds. *)
Lemma quotient_between (x y lo hi : R) :
  0 < y -> lo * y < x -> x < hi * y -> lo < x / y < hi.
Proof.
  intros Hy Hl Hu. split.
  - apply Rmult_lt_reg_r with y; [assumption|].
    replace (x / y * y) with x by (field; lra). assumption.
  - apply Rmult_lt_reg_r with y; [assumption|].
    replace (x / y * y) with x by (field; lra). assumption.
Qed.

(** The monthly investment for a target over whole years. *)
Lemma monthly_over_years (target r : R) (y : Z) :
  -1 < r -> Spec.effective_monthly_rate r <> 0 -> y <> 0%Z ->
  annuity_from_fv target (Spec.effective_monthly_rate r) (12 * y)
  = Ok (target * Spec.effective_monthly_rate r / (powerRZ (1 + r) y - 1)).
Proof.
  intros Hr Hi Hy. pose proof (effective_rate_growth_pos r) as Hq.
  rewrite annuity_from_fv_ok by (try assumption; lia).
  unfold Spec.monthly_payment.
  destruct (Req_dec_T _ 0); [contradiction|].
  rewrite growth_over_years by assumption. reflexivity.
Qed.

(** The wealth a renta over whole years requires. *)
Lemma wealth_over_years (rent r : R) (y : Z) :
  -1 < r -> Spec.effective_monthly_rate r <> 0 ->
  pv_renta_required rent r (IZR y)
  = Ok (rent * (1 - / powerRZ (1 + r) y) / Spec.effective_monthly_rate r).
Proof.
  intros Hr Hi. pose proof (effective_rate_growth_pos r) as Hq.
  unfold pv_renta_required. rewrite eff_monthly_rate_pos by assumption.
  cbn [bind].
  replace (IZR y * 12) with (IZR (y * 12)) by (rewrite mult_IZR; reflexivity).
  rewrite round_IZR.
  destruct (Req_dec_T _ 0); [contradiction|].
  rewrite float_pow_int by (left; lra). cbn [bind].
  rewrite float_div_ok by assumption.
  rewrite powerRZ_neg'. replace (y * 12)%Z with (12 * y)%Z by lia.
  rewrite growth_over_years by assumption. reflexivity.
Qed.

(** What [pretty] prints for a number that is not negative and lies within
    half a unit of an integer. *)
Lemma pretty_near (x : R) (z : Z) :
  0 <= x -> IZR z - 1 / 2 < x < IZR z + 1 / 2 ->
  pretty x = group_thousands " " (digits (Z.abs_N z)).
Proof.
  intros Hx Hz. rewrite pretty_grouped, (round_near x z Hz).
  destruct (Rlt_dec x 0); [lra | reflexivity].
Qed.

Lemma test1_figure :
  exists v,
    compute_lump_sum lump
    = Ok (<["monthly_investment" := VFloat v]> (Ledger.lump_sum_header lump))
    /\ pretty v = "1 970".
Proof.
  pose proof rate_7_percent as Hi.
  eexists. split.
  - unfold compute_lump_sum, lump, Ledger.lump_sum_header.
    cbn [LumpSumInput.annual_rate_accum LumpSumInput.years
         LumpSumInput.investment_type LumpSumInput.target_amount].
    rewrite eff_monthly_rate_pos by lra. cbn [bind].
    replace (round (20 * 12)) with 240%Z
      by (symmetry; apply round_near; lra).
    change 240%Z with (12 * 20)%Z.
    rewrite monthly_over_years by (try lra; lia). reflexivity.
  - rewrite (pretty_near _ 1970%Z); [reflexivity | |].
    + apply Rlt_le. apply Rdiv_lt_0_compat; [lra|]. simpl. lra.
    + apply quotient_between; simpl; lra.
Qed.

Lemma test2_figure :
  exists v,
    compute_lump_sum lump2
    = Ok (<["monthly_investment" := VFloat v]> (Ledger.lump_sum_header lump2))
    /\ pretty v = "11 879".
Proof.
  pose proof rate_7_percent as Hi.
  eexists. split.
  - unfold compute_lump_sum, lump2, Ledger.lump_sum_header.
    cbn [LumpSumInput.annual_rate_accum LumpSumInput.years
         LumpSumInput.investment_type LumpSumInput.target_amount].
    rewrite eff_monthly_rate_pos by lra. cbn [bind].
    replace (round (18 * 12)) with 216%Z
      by (symmetry; apply round_near; lra).
    change 216%Z with (12 * 18)%Z.
    rewrite monthly_over_years by (try lra; lia). reflexivity.
  - rewrite (pretty_near _ 11879%Z); [reflexivity | |].
    + apply Rlt_le. apply Rdiv_lt_0_compat; [lra|]. simpl. lra.
    + apply quotient_between; simpl; lra.
Qed.

(** The wealth the two renta tests require. *)
Lemma wealth_of_renta1 :
  5659787 + 1 / 2
  < 30000 * (1 - / powerRZ (1 + 5 / 100) 30)
    / Spec.effective_monthly_rate (5 / 100)
  < 5659788 + 1 / 2.
Proof.
  pose proof rate_5_percent as Hi.
  apply quotient_between; simpl; lra.
Qed.

Lemma wealth_of_renta2 :
  33721016 / 10
  < 17874 * (1 - / powerRZ (1 + 5 / 100) 30)
    / Spec.effective_monthly_rate (5 / 100)
  < 33721017 / 10.
Proof.
  pose proof rate_5_percent as Hi.
  apply quotient_between; simpl; lra.
Qed.

Lemma test3_figure :
  exists w v,
    compute_renta renta1
    = Ok (<["monthly_investment" := VFloat v]> (Ledger.renta_header renta1 w))
    /\ pretty w = "5 659 788".
Proof.
  pose proof rate_7_percent as Hi. pose proof rate_5_percent as Hi5.
  eexists. eexists. split.
  - unfold compute_renta, renta1, Ledger.renta_header.
    cbn [RentaInput.monthly_rent RentaInput.years_rent
         RentaInput.annual_rate_rent RentaInput.years_saving
         RentaInput.annual_rate_accum RentaInput.investment_type].
    rewrite (wealth_over_years 30000 (5 / 100) 30) by lra. cbn [bind].
    rewrite eff_monthly_rate_pos by lra. cbn [bind].
    replace (round (18 * 12)) with 216%Z
      by (symmetry; apply round_near; lra).
    change 216%Z with (12 * 18)%Z.
    rewrite monthly_over_years by (try lra; lia). reflexivity.
  - pose proof wealth_of_renta1 as Hw.
    rewrite (pretty_near _ 5659788%Z); [reflexivity | lra | lra].
Qed.

Lemma test4_figure :
  exists w v,
    compute_renta renta2
    = Ok (<["monthly_investment" := VFloat v]> (Ledger.renta_header renta2 w))
    /\ pretty v = "7 242".
Proof.
  pose proof rate_8_percent as Hi. pose proof rate_5_percent as Hi5.
  eexists. eexists. split.
  - unfold compute_renta, renta2, Ledger.renta_header.
    cbn [RentaInput.monthly_rent RentaInput.years_rent
         RentaInput.annual_rate_rent RentaInput.years_saving
         RentaInput.annual_rate_accum RentaInput.investment_type].
    rewrite (wealth_over_years 17874 (5 / 100) 30) by lra. cbn [bind].
    rewrite eff_monthly_rate_pos by lra. cbn [bind].
    replace (round (18 * 12)) with 216%Z
      by (symmetry; apply round_near; lra).
    change 216%Z with (12 * 18)%Z.
    rewrite monthly_over_years by (try lra; lia). reflexivity.
  - pose proof wealth_of_renta2 as Hw.
    set (w := 17874 * (1 - / powerRZ (1 + 5 / 100) 30)
              / Spec.effective_monthly_rate (5 / 100)) in *.
    set (i := Spec.effective_monthly_rate (8 / 100)) in *.
    assert (Hlo : 33721016 / 10 * (6434030 / 1000000000) < w * i)
      by (apply Rmult_le_0_lt_compat; lra).
    assert (Hhi : w * i < 33721017 / 10 * (6434031 / 1000000000))
      by (apply Rmult_le_0_lt_compat; lra).
    assert (Hd : 0 < powerRZ (1 + 8 / 100) 18 - 1) by (simpl; lra).
    rewrite (pretty_near _ 7242%Z); [reflexivity | |].
    + apply Rlt_le. apply Rdiv_lt_0_compat; [lra | exact Hd].
    + apply quotient_between; [exact Hd | |].
      * eapply Rlt_trans; [|exact Hlo]. simpl. lra.
      * eapply Rlt_trans; [exact Hhi|]. simpl. lra.
Qed.

Lemma item_found (key : string) (x : R) (d : dict) (c : console)
      (rest : R -> run) :
  d !! key = Some (VFloat x) -> item key d c rest = rest x.
Proof. intros H. unfold item. rewrite H. reflexivity. Qed.

End TestFacts.

Import Console ManualTests TestFacts.

(** X28. [run_manual_tests] runs to its end and prints, after each title and
    each expectation, the figures 1 970, 11 879, 5 659 788 and 7 242: the
    first three are the figures the source says it expects, the fourth is one
    above the expected 7 241. *)
Theorem manual_tests_print (c : console) :
  run_manual_tests c
  = Finished
      {| stdin := stdin c;
         stdout :=
           stdout c
           ++ [ title1 +:+ newline;
                expected1 +:+ newline;
                "Výsledek kalkulačky: 1 970" +:+ newline;
                title2 +:+ newline;
                expected2 +:+ newline;
                "Výsledek kalkulačky: 11 879" +:+ newline;
                title3 +:+ newline;
                expected3 +:+ newline;
                "Výsledek kalkulačky: 5 659 788" +:+ newline;
                title4 +:+ newline;
                expected4 +:+ newline;
                "Výsledek kalkulačky: 7 242" +:+ newline ] |}.
Proof.
  destruct test1_figure as (v1 & E1 & P1).
  destruct test2_figure as (v2 & E2 & P2).
  destruct test3_figure as (w3 & v3 & E3 & P3).
  destruct test4_figure as (w4 & v4 & E4 & P4).
  unfold run_manual_tests. cbv zeta.
  rewrite E1. cbn [computed].
  rewrite (item_found "monthly_investment" v1) by apply lookup_insert_eq.
  rewrite E2. cbn [computed].
  rewrite (item_found "monthly_investment" v2) by apply lookup_insert_eq.
  rewrite E3. cbn [computed].
  rewrite (item_found "required_wealth_at_rent_start" w3) by reflexivity.
  rewrite E4. cbn [computed].
  rewrite (item_found "monthly_investment" v4) by apply lookup_insert_eq.
  rewrite P1, P2, P3, P4.
  unfold print_result, print. cbn [stdin stdout].
  rewrite <- !app_assoc. reflexivity.
Qed.
